(** * The KPI mesh MQTT observer (wirepas_backend_client/test/kpi_mesh.py)

    A shallow embedding of [MultiMessageMqttObserver]: its three MQTT
    callbacks ([on_data_received], [on_status_received], [on_response_cb]),
    the queues they write to and the start signal they consult.

    The callbacks are Python closures over [self]; here they are computations
    in a small state-and-exception monad over the record [Observer], which
    holds the attributes of [self] that the callbacks touch. *)

From Stdlib Require Import List String ZArith Bool Lia DecimalString.
Import ListNotations.
Local Open Scope string_scope.
Local Open Scope list_scope.
Local Open Scope Z_scope.

(** ** Messages *)

(** [wirepas_messaging.gateway.api.GatewayState]. *)
Inductive GatewayState : Type := ONLINE | OFFLINE.

Definition GatewayState_eqb (a b : GatewayState) : bool :=
  match a, b with
  | ONLINE, ONLINE | OFFLINE, OFFLINE => true
  | _, _ => false
  end.

(** The decoded [StatusEvent]: the callback reads [gw_id] and [state]. *)
Record StatusEvent : Type := mkStatusEvent {
  ev_gw_id : string;
  ev_state : GatewayState
}.

(** One element of [message.configs]: a dict describing a sink.  The key
    ["network_address"] is looked up with [config["network_address"]], which
    raises [KeyError] when the key is absent: [None] stands for an absent
    key.  [sink_id] stands for the rest of the dict, which the callbacks never
    read. *)
Record Config : Type := mkConfig {
  network_address : option Z;
  sink_id : string
}.

(** The decoded [GetConfigsResponse]; [message.__dict__] is the whole of it. *)
Record GetConfigsResponse : Type := mkGetConfigsResponse {
  resp_gw_id : string;
  resp_req_id : Z;
  resp_res : Z;
  resp_configs : list Config
}.

(** What is put on [gw_status_queue]: either the dict literal
    [{"gw_id": ..., "configs": [...]}] built by [on_status_received], or the
    [__dict__] of a decoded response. *)
Inductive GwStatusMsg : Type :=
| StatusDict (gw_id : string) (configs : list Config)
| ResponseDict (message : GetConfigsResponse).

Definition gw_status_gw_id (m : GwStatusMsg) : string :=
  match m with
  | StatusDict g _ => g
  | ResponseDict r => resp_gw_id r
  end.

Definition gw_status_configs (m : GwStatusMsg) : list Config :=
  match m with
  | StatusDict _ c => c
  | ResponseDict r => resp_configs r
  end.

(** A request handed to [rx_queue] (the queue towards the MQTT broker). *)
Record Request : Type := mkRequest {
  req_name : string;
  req_gw_id : string
}.

(** Modelled from the spec: [Topics.request_message] lives in
    [wirepas_backend_client.api], outside the files at hand.  The spec's
    ConfigRequest is [{gateway_id}] and is addressed to the gateway that
    produced the event; the request is therefore the record of the two
    arguments of the call. *)
Definition request_message (name : string) (gw_id : string) : Request :=
  mkRequest name gw_id.

(** A call of [self.logger.debug(fmt, *args)]. *)
Inductive LogRecord : Type :=
| Debug (fmt : string) (args : list string).

(** The exceptions that can leave a callback. *)
Inductive Exn : Type :=
| AttributeError   (* [None.put(...)] *)
| KeyError         (* [config["network_address"]] on a dict without the key *)
| ValueError       (* [int(network_id)] on a string that is not a number *)
| PayloadError.    (* [from_payload] rejecting the payload *)

Inductive Outcome (A : Type) : Type :=
| Return (a : A)
| Raise (e : Exn).
Arguments Return {A} a.
Arguments Raise {A} e.

Section Mediator.

(** The decoded data message ([decode_topic_message] hands it to
    [on_data_received]) and the raw MQTT payload ([topic_message] hands it
    to the two other callbacks) are opaque here. *)
Variable DataMessage : Type.
Variable Payload : Type.

(** [self.mqtt_topics.constructor("event", "status").from_payload] and
    [self.mqtt_topics.constructor("response", "get_configs").from_payload]:
    decoders of [wirepas_messaging]; [None] when they raise. *)
Variable status_from_payload : Payload -> option StatusEvent.
Variable get_configs_from_payload : Payload -> option GetConfigsResponse.

(** Python's [int] on a string; [None] when it raises [ValueError]. *)
Variable py_int : string -> option Z.

(** ** The observer *)

(** The attributes of [self] read or written by the callbacks.
    [gw_status_queue] and [storage_queue] come from
    [kwargs.pop(..., None)]: [None] when the observer was built without
    them.  [start_signal], [exit_signal] and [rx_queue] are those of the
    base class [MQTTObserver]; [logger] is the list of records logged so
    far. *)
Record Observer : Type := mkObserver {
  start_signal : bool;
  exit_signal : bool;
  network_id : string;
  gw_status_queue : option (list GwStatusMsg);
  storage_queue : option (list DataMessage);
  rx_queue : list Request;
  logger : list LogRecord
}.

(** ** State and exception monad *)

Definition M (A : Type) : Type := Observer -> Outcome A * Observer.

Definition ret {A : Type} (a : A) : M A := fun st => (Return a, st).

Definition raise {A : Type} (e : Exn) : M A := fun st => (Raise e, st).

Definition bind {A B : Type} (c : M A) (k : A -> M B) : M B :=
  fun st =>
    match c st with
    | (Return a, st') => k a st'
    | (Raise e, st') => (Raise e, st')
    end.

Notation "x <- c ;; k" := (bind c (fun x => k))
  (at level 61, c at next level, right associativity).
Notation "c ;;; k" := (bind c (fun _ => k))
  (at level 61, right associativity).

(** [self.start_signal.is_set()] *)
Definition is_set : M bool := fun st => (Return (start_signal st), st).

(** [self.logger.debug(fmt, *args)] *)
Definition logger_debug (fmt : string) (args : list string) : M unit :=
  fun st =>
    (Return tt,
     mkObserver (start_signal st) (exit_signal st) (network_id st)
                (gw_status_queue st) (storage_queue st) (rx_queue st)
                (logger st ++ [Debug fmt args])).

(** [self.storage_queue.put(message)]; the caller has checked for [None]. *)
Definition storage_queue_put (message : DataMessage) : M unit :=
  fun st =>
    match storage_queue st with
    | None => (Raise AttributeError, st)
    | Some q =>
        (Return tt,
         mkObserver (start_signal st) (exit_signal st) (network_id st)
                    (gw_status_queue st) (Some (q ++ [message]))
                    (rx_queue st) (logger st))
    end.

(** [self.gw_status_queue.put(msg)] *)
Definition gw_status_queue_put (msg : GwStatusMsg) : M unit :=
  fun st =>
    match gw_status_queue st with
    | None => (Raise AttributeError, st)
    | Some q =>
        (Return tt,
         mkObserver (start_signal st) (exit_signal st) (network_id st)
                    (Some (q ++ [msg])) (storage_queue st)
                    (rx_queue st) (logger st))
    end.

(** [self.rx_queue.put(request)] *)
Definition rx_queue_put (request : Request) : M unit :=
  fun st =>
    (Return tt,
     mkObserver (start_signal st) (exit_signal st) (network_id st)
                (gw_status_queue st) (storage_queue st)
                (rx_queue st ++ [request]) (logger st)).

(** [storage_queue is not None] *)
Definition storage_queue_is_not_None : M bool :=
  fun st =>
    (Return (match storage_queue st with Some _ => true | None => false end),
     st).

(** Decoding with [from_payload]. *)
Definition from_payload {A : Type} (decode : Payload -> option A)
           (message : Payload) : M A :=
  match decode message with
  | Some m => ret m
  | None => raise PayloadError
  end.

(** ** The callbacks *)

(** The function [on_data_received] that [generate_data_received_cb]
    defines, as the decorator [decode_topic_message] calls it: with the
    decoded data and the split topic.  The decorated function, which is what
    is registered, is [generate_data_received_cb] below. *)
Definition on_data_received (message : DataMessage) (topics : list string)
  : M unit :=
  started <- is_set ;;
  if started then
    present <- storage_queue_is_not_None ;;
    if present then storage_queue_put message else ret tt
  else
    logger_debug "waiting for start signal, received mqtt data ignored" [].

(** [generate_gw_status_cb]: the body of [on_status_received]. *)
Definition on_status_received (message : Payload) (topic : list string)
  : M unit :=
  started <- is_set ;;
  if started then
    message <- from_payload status_from_payload message ;;
    if GatewayState_eqb (ev_state message) ONLINE then
      let request := request_message "get_configs" (ev_gw_id message) in
      rx_queue_put request
    else
      let gw_status_msg := StatusDict (ev_gw_id message) [] in
      gw_status_queue_put gw_status_msg
  else
    logger_debug
      "waiting for start signal, received mqtt gw status ignored" [].

(** The [for config in message.configs] loop of [on_response_cb], from the
    sinks still to visit and the current value of
    [configuration_processed]; returns the flag's final value.  [break]
    is the branch that does not recurse. *)
Fixpoint scan_configs (network_id : string) (message : GetConfigsResponse)
         (todo : list Config) (configuration_processed : bool) : M bool :=
  match todo with
  | [] => ret configuration_processed
  | config :: todo' =>
      if negb (String.eqb network_id "+") then
        match network_address config with
        | None => raise KeyError
        | Some address =>
            match py_int network_id with
            | None => raise ValueError
            | Some wanted =>
                if Z.eqb address wanted then
                  gw_status_queue_put (ResponseDict message) ;;;
                  ret true
                else
                  scan_configs network_id message todo'
                               configuration_processed
            end
        end
      else
        gw_status_queue_put (ResponseDict message) ;;;
        scan_configs network_id message todo' true
  end.

(** [generate_got_gw_configs_cb(network_id)]: the body of
    [on_response_cb]. *)
Definition on_response_cb (network_id : string) (message : Payload)
           (topic : list string) : M unit :=
  started <- is_set ;;
  if started then
    message <- from_payload get_configs_from_payload message ;;
    configuration_processed <-
      scan_configs network_id message (resp_configs message) false ;;
    if configuration_processed then
      logger_debug "MQTT gw configuration received for gw '%s'."
                   [resp_gw_id message]
    else
      logger_debug
        "MQTT gw configuration received for gw '%s' but not processed due network id filter '%s'."
        [resp_gw_id message; network_id]
  else
    logger_debug
      "waiting for start signal, received MQTT gw configuration ignored" [].

(** A call of one of the three functions behind
    [message_subscribe_handlers], with the arguments that its decorator
    hands it; the response callback is generated with [self.network_id].
    [Incoming], further down, has the data message as it arrives, before the
    decorator. *)
Inductive Delivery : Type :=
| ReceivedData (message : DataMessage) (topics : list string)
| GwStatus (message : Payload) (topic : list string)
| GotGwConfigs (message : Payload) (topic : list string).

Definition deliver (d : Delivery) : M unit :=
  match d with
  | ReceivedData message topics => on_data_received message topics
  | GwStatus message topic => on_status_received message topic
  | GotGwConfigs message topic =>
      fun st => on_response_cb (network_id st) message topic st
  end.

(** ** Observers that differ in one attribute *)

Definition with_gw_status_queue (q : option (list GwStatusMsg))
           (st : Observer) : Observer :=
  mkObserver (start_signal st) (exit_signal st) (network_id st)
             q (storage_queue st) (rx_queue st) (logger st).

Definition with_storage_queue (q : option (list DataMessage))
           (st : Observer) : Observer :=
  mkObserver (start_signal st) (exit_signal st) (network_id st)
             (gw_status_queue st) q (rx_queue st) (logger st).

Definition with_rx_queue (q : list Request) (st : Observer) : Observer :=
  mkObserver (start_signal st) (exit_signal st) (network_id st)
             (gw_status_queue st) (storage_queue st) q (logger st).

Definition with_logger (l : list LogRecord) (st : Observer) : Observer :=
  mkObserver (start_signal st) (exit_signal st) (network_id st)
             (gw_status_queue st) (storage_queue st) (rx_queue st) l.

(** ** The daemon that owns the observer *)

(** Modelled from the spec: the [Daemon] of
    [wirepas_backend_client.management] (its [build], [start] and stop) is
    outside the files at hand.  The spec has the gate initially unset and
    the queues created empty; the observer's filter and the presence of its
    two queues are fixed when it is built. *)
Definition daemon_build (network_id : string)
           (has_gw_status_queue has_storage_queue : bool) : Observer :=
  mkObserver false false network_id
             (if has_gw_status_queue then Some [] else None)
             (if has_storage_queue then Some [] else None)
             [] [].

(** Modelled from the spec: [daemon.start(set_start_signal=True)] sets the
    Readiness Gate once every task runs. *)
Definition daemon_start (st : Observer) : Observer :=
  mkObserver true (exit_signal st) (network_id st)
             (gw_status_queue st) (storage_queue st)
             (rx_queue st) (logger st).

(** Modelled from the spec: stopping signals every task to stop accepting
    input (the exit signal); the spec gives it no effect on the gate. *)
Definition daemon_stop (st : Observer) : Observer :=
  mkObserver (start_signal st) true (network_id st)
             (gw_status_queue st) (storage_queue st)
             (rx_queue st) (logger st).

(** What can happen to the observer: a message is delivered to one of its
    callbacks (an exception leaves the callback, the observer stays as the
    callback left it), or the daemon starts or stops. *)
Inductive Action : Type :=
| Deliver (d : Delivery)
| Start
| Stop.

Definition step (a : Action) (st : Observer) : Observer :=
  match a with
  | Deliver d => snd (deliver d st)
  | Start => daemon_start st
  | Stop => daemon_stop st
  end.

Fixpoint run (actions : list Action) (st : Observer) : Observer :=
  match actions with
  | [] => st
  | a :: actions' => run actions' (step a st)
  end.

(** ** The data callback as registered *)

(** What the MQTT client hands to a registered callback: the message, with
    its topic and its payload. *)
Variable MqttMessage : Type.

(** [decode_topic_message] lives in [wirepas_backend_client.api], outside the
    files at hand.  Its wrapper works out, from the MQTT message alone, the
    arguments of the call [f(data, topic)] that it ends with: the decoded
    data and the split topic.  [decode_topic_message_args] stands for that
    computation; it is [Raise] when the wrapper raises before the call (a
    topic level that [int] rejects, a payload that does not decode). *)
Variable decode_topic_message_args :
  MqttMessage -> Outcome (DataMessage * list string).

(** [@decode_topic_message]: the wrapper around [f]. *)
Definition decode_topic_message
           (f : DataMessage -> list string -> M unit)
           (message : MqttMessage) : M unit :=
  fun st =>
    match decode_topic_message_args message with
    | Return (data, topic) => f data topic st
    | Raise e => (Raise e, st)
    end.

(** [generate_data_received_cb()]: the decorated [on_data_received]. *)
Definition generate_data_received_cb : MqttMessage -> M unit :=
  decode_topic_message on_data_received.

(** A message arriving on one of the three subscriptions, the data
    subscription served by the decorated callback. *)
Inductive Incoming : Type :=
| DataIn (message : MqttMessage)
| StatusIn (message : Payload) (topic : list string)
| ConfigsIn (message : Payload) (topic : list string).

Definition receive (i : Incoming) : M unit :=
  match i with
  | DataIn message => generate_data_received_cb message
  | StatusIn message topic => on_status_received message topic
  | ConfigsIn message topic =>
      fun st => on_response_cb (network_id st) message topic st
  end.

Fixpoint receive_all (incoming : list Incoming) (st : Observer) : Observer :=
  match incoming with
  | [] => st
  | i :: incoming' => receive_all incoming' (snd (receive i st))
  end.

(** The arrival gets as far as the gate check of its callback: the
    decorator of the data callback did not raise. *)
Definition reaches_gate (i : Incoming) : bool :=
  match i with
  | DataIn message =>
      match decode_topic_message_args message with
      | Return _ => true
      | Raise _ => false
      end
  | StatusIn _ _ | ConfigsIn _ _ => true
  end.

(** The data that the decorator decodes from a stream of messages, the
    messages it raises on left out. *)
Definition decoded_data (messages : list MqttMessage) : list DataMessage :=
  flat_map (fun message =>
              match decode_topic_message_args message with
              | Return (data, _) => [data]
              | Raise _ => []
              end) messages.

End Mediator.

Arguments Observer DataMessage : clear implicits.
Arguments mkObserver {DataMessage}.
Arguments start_signal {DataMessage}.
Arguments exit_signal {DataMessage}.
Arguments network_id {DataMessage}.
Arguments gw_status_queue {DataMessage}.
Arguments storage_queue {DataMessage}.
Arguments rx_queue {DataMessage}.
Arguments logger {DataMessage}.
Arguments with_gw_status_queue {DataMessage}.
Arguments with_storage_queue {DataMessage}.
Arguments with_rx_queue {DataMessage}.
Arguments with_logger {DataMessage}.
Arguments on_data_received {DataMessage}.
Arguments on_status_received {DataMessage Payload}.
Arguments scan_configs {DataMessage}.
Arguments on_response_cb {DataMessage Payload}.
Arguments ReceivedData {DataMessage Payload}.
Arguments GwStatus {DataMessage Payload}.
Arguments GotGwConfigs {DataMessage Payload}.
Arguments deliver {DataMessage Payload}.
Arguments daemon_build {DataMessage}.
Arguments daemon_start {DataMessage}.
Arguments daemon_stop {DataMessage}.
Arguments Deliver {DataMessage Payload}.
Arguments Start {DataMessage Payload}.
Arguments Stop {DataMessage Payload}.
Arguments step {DataMessage Payload}.
Arguments run {DataMessage Payload}.
Arguments decode_topic_message {DataMessage MqttMessage}.
Arguments generate_data_received_cb {DataMessage MqttMessage}.
Arguments DataIn {Payload MqttMessage}.
Arguments StatusIn {Payload MqttMessage}.
Arguments ConfigsIn {Payload MqttMessage}.
Arguments receive {DataMessage Payload} _ _ _ {MqttMessage}.
Arguments receive_all {DataMessage Payload} _ _ _ {MqttMessage}.
Arguments reaches_gate {DataMessage Payload MqttMessage}.
Arguments decoded_data {DataMessage MqttMessage}.

(** The three queues of [st'] hold what they held in [st]. *)
Definition same_queues {DataMessage : Type} (st st' : Observer DataMessage)
  : Prop :=
  storage_queue st' = storage_queue st
  /\ gw_status_queue st' = gw_status_queue st
  /\ rx_queue st' = rx_queue st.

(** ** The diagnostics of the response callback *)

Definition configuration_received (gw_id : string) : LogRecord :=
  Debug "MQTT gw configuration received for gw '%s'." [gw_id].

Definition configuration_not_processed (gw_id network_id : string)
  : LogRecord :=
  Debug
    "MQTT gw configuration received for gw '%s' but not processed due network id filter '%s'."
    [gw_id; network_id].

(** ** Sinks against a filter *)

(** The sink has a network address and it is [wanted]. *)
Definition matches (wanted : Z) (config : Config) : bool :=
  match network_address config with
  | Some address => Z.eqb address wanted
  | None => false
  end.

(** The sink has a network address and it is not [wanted]. *)
Definition differs (wanted : Z) (config : Config) : bool :=
  match network_address config with
  | Some address => negb (Z.eqb address wanted)
  | None => false
  end.

(** ** A concrete instance, to run the callbacks *)

Module Demo.

(** A payload that says what it decodes to. *)
Inductive Wire : Type :=
| WireStatus (event : StatusEvent)
| WireConfigs (response : GetConfigsResponse)
| WireNoise.

Definition status_of (w : Wire) : option StatusEvent :=
  match w with WireStatus e => Some e | _ => None end.

Definition configs_of (w : Wire) : option GetConfigsResponse :=
  match w with WireConfigs r => Some r | _ => None end.

(** A part of what [int] reads: decimal digits with an optional minus
    sign.  Python's [int] also takes a plus sign, white space around the
    number and underscores between digits; the runs below use the filters
    ["2"], ["3"], ["+"] and ["abc"] only, on which the two agree. *)
Definition decimal_int (s : string) : option Z :=
  option_map Z.of_int (NilZero.int_of_string s).

Definition on_status := on_status_received (DataMessage := string) status_of.
Definition on_response :=
  on_response_cb (DataMessage := string) configs_of decimal_int.
Definition on_data := on_data_received (DataMessage := string).

(** An MQTT data message that says what the decorator makes of it. *)
Inductive DataWire : Type :=
| DataDecodes (data : string) (topic : list string)
| DataRejected (e : Exn).

Definition data_args (w : DataWire) : Outcome (string * list string) :=
  match w with
  | DataDecodes data topic => Return (data, topic)
  | DataRejected e => Raise e
  end.

Definition data_cb := generate_data_received_cb data_args.
Definition perform :=
  run (DataMessage := string) status_of configs_of decimal_int.
Definition take_all :=
  receive_all (DataMessage := string) status_of configs_of decimal_int
              data_args.

(** An observer built with both queues, after the daemon's start. *)
Definition ready (network_id : string) : Observer string :=
  daemon_start (daemon_build network_id true true).

(** An observer built without a storage queue, after the daemon's start. *)
Definition ready_without_storage (network_id : string) : Observer string :=
  daemon_start (daemon_build network_id true false).

Definition sink (address : Z) (name : string) : Config :=
  mkConfig (Some address) name.

(** The responses of the spec's testable properties 4 to 6. *)
Definition three_sinks : GetConfigsResponse :=
  mkGetConfigsResponse "gw1" 7 0
    [sink 1 "sink0"; sink 2 "sink1"; sink 2 "sink2"].

Definition one_foreign_sink : GetConfigsResponse :=
  mkGetConfigsResponse "gw1" 8 0 [sink 9 "sink0"].

(** A response whose last sink has no network address. *)
Definition last_sink_unreadable : GetConfigsResponse :=
  mkGetConfigsResponse "gw1" 9 0
    [sink 1 "sink0"; sink 2 "sink1"; mkConfig None "sink2"].

Definition online_event : StatusEvent := mkStatusEvent "gw1" ONLINE.
Definition offline_event : StatusEvent := mkStatusEvent "gw1" OFFLINE.

End Demo.

(** ** What a stream of status events should leave on the queues *)

(** The requests for the ONLINE events, in the order of the events. *)
Definition requests_for (events : list StatusEvent) : list Request :=
  map (fun ev => request_message "get_configs" (ev_gw_id ev))
      (filter (fun ev => GatewayState_eqb (ev_state ev) ONLINE) events).

(** The empty records for the other events, in the order of the events. *)
Definition records_for (events : list StatusEvent) : list GwStatusMsg :=
  map (fun ev => StatusDict (ev_gw_id ev) [])
      (filter (fun ev => negb (GatewayState_eqb (ev_state ev) ONLINE)) events).

(** The sink has a network address. *)
Definition has_network_address (config : Config) : bool :=
  match network_address config with
  | Some _ => true
  | None => false
  end.

(** ** Queues that only grow *)

(** [after] is [before] with items added at its end. *)
Definition extends {A : Type} (before after : list A) : Prop :=
  exists added, after = before ++ added.

(** The same for a queue that may be absent: it stays absent or stays
    present, and is only added to. *)
Definition queue_extends {A : Type} (before after : option (list A)) : Prop :=
  match before, after with
  | Some b, Some a => extends b a
  | None, None => True
  | _, _ => False
  end.

(** [st'] is [st] with the same signals and filter, every queue and the log
    only added to. *)
Definition observer_extends {DataMessage : Type}
           (st st' : Observer DataMessage) : Prop :=
  start_signal st' = start_signal st
  /\ exit_signal st' = exit_signal st
  /\ network_id st' = network_id st
  /\ queue_extends (storage_queue st) (storage_queue st')
  /\ queue_extends (gw_status_queue st) (gw_status_queue st')
  /\ extends (rx_queue st) (rx_queue st')
  /\ extends (logger st) (logger st').

(** The deliveries of a stream of status payloads, each with the topic it
    came on. *)
Definition status_deliveries {DataMessage Payload : Type}
           (payloads : list (Payload * list string))
  : list (Action DataMessage Payload) :=
  map (fun pt => Deliver (GwStatus (fst pt) (snd pt))) payloads.

(** ** The subscriptions of the observer *)

(** The three topic filters of [__init__], [str.format] on string
    settings. *)
Definition received_data_topic (gw_id sink_id network_id : string) : string :=
  "gw-event/received_data/" ++ gw_id ++ "/" ++ sink_id ++ "/" ++ network_id
  ++ "/#".

Definition status_topic (gw_id : string) : string :=
  "gw-event/status/" ++ gw_id.

Definition get_configs_topic (gw_id : string) : string :=
  "gw-response/get_configs/" ++ gw_id ++ "/#".

(** The callbacks that [__init__] generates. *)
Inductive Callback : Type :=
| DataReceivedCb
| GwStatusCb
| GotGwConfigsCb (network_id : string).

(** A Python dict with string keys, in insertion order: setting a key that
    is present replaces its value in place. *)
Fixpoint dict_set {V : Type} (key : string) (value : V)
         (d : list (string * V)) : list (string * V) :=
  match d with
  | [] => [(key, value)]
  | (k, v) :: d' =>
      if String.eqb k key then (k, value) :: d'
      else (k, v) :: dict_set key value d'
  end.

Fixpoint dict_get {V : Type} (key : string) (d : list (string * V))
  : option V :=
  match d with
  | [] => None
  | (k, v) :: d' => if String.eqb k key then Some v else dict_get key d'
  end.

(** [self.message_subscribe_handlers]: the dict display of [__init__], its
    three items set in the order written. *)
Definition message_subscribe_handlers (gateway_id sink_id network_id : string)
  : list (string * Callback) :=
  dict_set (get_configs_topic gateway_id) (GotGwConfigsCb network_id)
    (dict_set (status_topic gateway_id) GwStatusCb
       (dict_set (received_data_topic gateway_id sink_id network_id)
                 DataReceivedCb [])).

(** ** The entry point *)

(** [RunConfiguration] *)
Inductive RunConfiguration : Type :=
| run_normally
| run_only_http.

Definition RunConfiguration_value (c : RunConfiguration) : Z :=
  match c with
  | run_normally => 1
  | run_only_http => 2
  end.

(** The module's [run_config]. *)
Definition run_config : RunConfiguration := run_normally.

(** [run_config == RunConfiguration.member]; [None] stands for a value that
    is no member of the enumeration. *)
Definition run_config_is (value : option RunConfiguration)
           (member : RunConfiguration) : bool :=
  match value, member with
  | Some run_normally, run_normally => true
  | Some run_only_http, run_only_http => true
  | _, _ => false
  end.

(** The local variables that the [if]/[elif]/[else] of [main] assigns. *)
Record TaskNames : Type := mkTaskNames {
  mqtt_name : option string;
  storage_name : option string;
  control_name : string;
  use_storage : bool
}.

Definition task_names (value : option RunConfiguration) : TaskNames :=
  if run_config_is value run_normally then
    mkTaskNames (Some "mqtt") (Some "mysql") "http" true
  else if run_config_is value run_only_http then
    mkTaskNames (Some "mqtt") None "http" false
  else
    mkTaskNames (Some "mqtt") (Some "mysql") "http" true.

(** The observer classes handed to [daemon.build]. *)
Inductive ObserverClass : Type :=
| MySQLObserver
| MultiMessageMqttObserver
| HTTPObserver.

(** A value of the dict of constructor arguments handed to [daemon.build]:
    the queue returned by the n-th [daemon.create_queue()], or a settings
    object. *)
Inductive BuildArgument : Type :=
| QueueObject (created_by : nat)
| MySQLSettings
| MQTTSettings
| HTTPSettings.

(** The calls that [main] makes on the daemon.  For [CallBuild], a keyword
    that the call does not pass is [None]; [storage_name] passed as Python's
    [None] is [Some None]. *)
Inductive DaemonCall : Type :=
| CallDaemon
| CallCreateQueue
| CallBuild (name : string) (cls : ObserverClass)
            (kwargs : list (string * BuildArgument))
            (storage : option bool)
            (storage_name : option (option string))
            (send_to : option string)
| CallSetRun (name : string) (task_kwargs : list (string * Z))
             (task_as_daemon : bool)
| CallStart (set_start_signal : bool).

(** The logger calls of [main] after the logger is set up. *)
Inductive MainLog : Type :=
| LogError (fmt : string) (args : list string)
| LogDebug (fmt : string).

(** [main], from the two [sanity()] results on: the calls made on the daemon
    and the records logged, in order.  The parsing of the settings and the
    set-up of the logger come before and are not part of it. *)
Definition main (value : option RunConfiguration)
           (mqtt_sanity http_sanity : bool)
  : list DaemonCall * list MainLog :=
  if mqtt_sanity && http_sanity then
    let gw_status_from_mqtt_broker := QueueObject 0 in
    let names := task_names value in
    ([CallDaemon; CallCreateQueue]
     ++ match storage_name names with
        | Some name =>
            [CallBuild name MySQLObserver [("mysql_settings", MySQLSettings)]
                       None None None;
             CallSetRun name [("n_workers", 8)] false]
        | None => []
        end
     ++ match mqtt_name names with
        | Some name =>
            [CallBuild name MultiMessageMqttObserver
                       [("gw_status_queue", gw_status_from_mqtt_broker);
                        ("mqtt_settings", MQTTSettings)]
                       (Some (use_storage names))
                       (Some (storage_name names)) None]
        | None => []
        end
     ++ match mqtt_name names with
        | Some name =>
            [CallBuild (control_name names) HTTPObserver
                       [("gw_status_queue", gw_status_from_mqtt_broker);
                        ("http_settings", HTTPSettings)]
                       None None (Some name)]
        | None => []
        end
     ++ [CallStart true],
     [LogDebug "test_kpi exit!"])
  else
    ([],
     [LogError "Please check your MQTT and MySQL settings:" [];
      LogError (String (Ascii.ascii_of_nat 10) "%s") ["mqtt_settings"];
      LogError (String (Ascii.ascii_of_nat 10) "%s") ["http_settings"];
      LogDebug "test_kpi exit!"]).

(** ** Reading a list of daemon calls *)

(** The names of the tasks built, in the order of the calls. *)
Fixpoint built_tasks (calls : list DaemonCall) : list string :=
  match calls with
  | [] => []
  | CallBuild name _ _ _ _ _ :: calls' => name :: built_tasks calls'
  | _ :: calls' => built_tasks calls'
  end.

(** The queues handed to the built tasks under the key [gw_status_queue]. *)
Fixpoint status_queues_handed (calls : list DaemonCall)
  : list (string * BuildArgument) :=
  match calls with
  | [] => []
  | CallBuild name _ kwargs _ _ _ :: calls' =>
      match dict_get "gw_status_queue" kwargs with
      | Some q => (name, q) :: status_queues_handed calls'
      | None => status_queues_handed calls'
      end
  | _ :: calls' => status_queues_handed calls'
  end.

(** The [storage] flags passed, with the name of the task that gets it and
    the [storage_name] passed along. *)
Fixpoint storage_flags (calls : list DaemonCall)
  : list (string * bool * option (option string)) :=
  match calls with
  | [] => []
  | CallBuild name _ _ (Some flag) sname _ :: calls' =>
      (name, flag, sname) :: storage_flags calls'
  | _ :: calls' => storage_flags calls'
  end.

(** * Facts about the callbacks *)

Section Facts.

Context {DataMessage Payload : Type}.
Variable status_from_payload : Payload -> option StatusEvent.
Variable get_configs_from_payload : Payload -> option GetConfigsResponse.
Variable py_int : string -> option Z.
Context {MqttMessage : Type}.
Variable decode_topic_message_args :
  MqttMessage -> Outcome (DataMessage * list string).

Local Abbreviation on_status :=
  (on_status_received (DataMessage := DataMessage) status_from_payload).
Local Abbreviation on_response :=
  (on_response_cb (DataMessage := DataMessage)
                  get_configs_from_payload py_int).
Local Abbreviation scan := (scan_configs (DataMessage := DataMessage) py_int).
Local Abbreviation dispatch :=
  (deliver status_from_payload get_configs_from_payload py_int).
Local Abbreviation perform :=
  (run status_from_payload get_configs_from_payload py_int).
Local Abbreviation data_cb :=
  (generate_data_received_cb decode_topic_message_args).
Local Abbreviation take_all :=
  (receive_all status_from_payload get_configs_from_payload py_int
               decode_topic_message_args).

Implicit Types (st : Observer DataMessage) (topic : list string).

Ltac enter_callback :=
  unfold on_data_received, on_status_received, on_response_cb,
    bind, is_set, from_payload, storage_queue_is_not_None,
    storage_queue_put, gw_status_queue_put, rx_queue_put, logger_debug,
    ret, raise.

(** ** The status callback *)

Lemma on_status_received_waiting st p topic :
  start_signal st = false ->
  on_status p topic st
  = (Return tt,
     with_logger
       (logger st
        ++ [Debug "waiting for start signal, received mqtt gw status ignored"
                  []]) st).
Proof. intros Hs. enter_callback. rewrite Hs. reflexivity. Qed.

Lemma on_status_received_online st p topic ev :
  start_signal st = true ->
  status_from_payload p = Some ev ->
  ev_state ev = ONLINE ->
  on_status p topic st
  = (Return tt,
     with_rx_queue
       (rx_queue st ++ [request_message "get_configs" (ev_gw_id ev)]) st).
Proof.
  intros Hs Hd He. enter_callback. rewrite Hs, Hd, He. reflexivity.
Qed.

Lemma on_status_received_offline st p topic ev q :
  start_signal st = true ->
  status_from_payload p = Some ev ->
  ev_state ev = OFFLINE ->
  gw_status_queue st = Some q ->
  on_status p topic st
  = (Return tt,
     with_gw_status_queue (Some (q ++ [StatusDict (ev_gw_id ev) []])) st).
Proof.
  intros Hs Hd He Hq. enter_callback. rewrite Hs, Hd, He. cbn.
  rewrite Hq. reflexivity.
Qed.

Lemma on_status_received_offline_no_queue st p topic ev :
  start_signal st = true ->
  status_from_payload p = Some ev ->
  ev_state ev = OFFLINE ->
  gw_status_queue st = None ->
  on_status p topic st = (Raise AttributeError, st).
Proof.
  intros Hs Hd He Hq. enter_callback. rewrite Hs, Hd, He. cbn.
  rewrite Hq. reflexivity.
Qed.

Lemma on_status_received_undecoded st p topic :
  start_signal st = true ->
  status_from_payload p = None ->
  on_status p topic st = (Raise PayloadError, st).
Proof. intros Hs Hd. enter_callback. rewrite Hs, Hd. reflexivity. Qed.

(** ** The data callback *)

Lemma on_data_received_waiting st (m : DataMessage) topics :
  start_signal st = false ->
  on_data_received m topics st
  = (Return tt,
     with_logger
       (logger st
        ++ [Debug "waiting for start signal, received mqtt data ignored" []])
       st).
Proof. intros Hs. enter_callback. rewrite Hs. reflexivity. Qed.

Lemma on_data_received_stored st (m : DataMessage) topics q :
  start_signal st = true ->
  storage_queue st = Some q ->
  on_data_received m topics st
  = (Return tt, with_storage_queue (Some (q ++ [m])) st).
Proof.
  intros Hs Hq. enter_callback. rewrite Hs. cbn.
  repeat (rewrite Hq; cbn). reflexivity.
Qed.

Lemma on_data_received_no_queue st (m : DataMessage) topics :
  start_signal st = true ->
  storage_queue st = None ->
  on_data_received m topics st = (Return tt, st).
Proof.
  intros Hs Hq. enter_callback. rewrite Hs. cbn.
  repeat (rewrite Hq; cbn). reflexivity.
Qed.

(** ** The scan of [message.configs] *)

Lemma with_gw_status_queue_same st q :
  gw_status_queue st = q -> with_gw_status_queue q st = st.
Proof. destruct st; cbn; intros <-; reflexivity. Qed.

Lemma not_wildcard (nid : string) :
  nid <> "+" -> negb (String.eqb nid "+") = true.
Proof.
  intros Hn. apply negb_true_iff. apply String.eqb_neq. exact Hn.
Qed.

(** Under the wildcard every sink costs one [put] of the whole response. *)
Lemma scan_configs_wildcard (msg : GetConfigsResponse) todo :
  forall flag st q,
    gw_status_queue st = Some q ->
    scan "+" msg todo flag st
    = (Return (match todo with [] => flag | _ :: _ => true end),
       with_gw_status_queue
         (Some (q ++ repeat (ResponseDict msg) (List.length todo))) st).
Proof.
  induction todo as [|c todo IH]; intros flag st q Hq.
  - cbn. unfold ret. rewrite app_nil_r.
    rewrite (with_gw_status_queue_same st _ Hq). reflexivity.
  - cbn [scan_configs String.eqb Ascii.eqb Bool.eqb negb].
    unfold bind at 1. unfold gw_status_queue_put at 1. rewrite Hq.
    erewrite IH by reflexivity.
    cbn [List.length repeat]. unfold with_gw_status_queue. cbn.
    rewrite <- app_assoc. cbn. destruct todo; reflexivity.
Qed.

(** Without a status queue the first [put] of the wildcard scan raises. *)
Lemma scan_configs_wildcard_no_queue (msg : GetConfigsResponse) c todo :
  forall flag st,
    gw_status_queue st = None ->
    scan "+" msg (c :: todo) flag st = (Raise AttributeError, st).
Proof.
  intros flag st Hq.
  cbn [scan_configs String.eqb Ascii.eqb Bool.eqb negb].
  unfold bind at 1. unfold gw_status_queue_put at 1. rewrite Hq.
  reflexivity.
Qed.

(** Sinks of other networks are passed over and leave no trace. *)
Lemma scan_configs_no_match nid wanted (msg : GetConfigsResponse) todo :
  nid <> "+" ->
  py_int nid = Some wanted ->
  forallb (differs wanted) todo = true ->
  forall flag st, scan nid msg todo flag st = (Return flag, st).
Proof.
  intros Hn Hw. induction todo as [|c todo IH]; intros Hall flag st.
  - reflexivity.
  - cbn in Hall. apply andb_true_iff in Hall. destruct Hall as [Hc Hall].
    cbn [scan_configs]. rewrite (not_wildcard nid Hn), Hw.
    unfold differs in Hc. destruct (network_address c) as [a|].
    + apply negb_true_iff in Hc. rewrite Hc. apply IH. exact Hall.
    + discriminate Hc.
Qed.

(** The first sink of the wanted network ends the scan: the response is put
    once, and what follows the sink plays no part. *)
Lemma scan_configs_first_match nid wanted (msg : GetConfigsResponse)
      pre c post :
  nid <> "+" ->
  py_int nid = Some wanted ->
  forallb (differs wanted) pre = true ->
  matches wanted c = true ->
  forall flag st q,
    gw_status_queue st = Some q ->
    scan nid msg (pre ++ c :: post) flag st
    = (Return true,
       with_gw_status_queue (Some (q ++ [ResponseDict msg])) st).
Proof.
  intros Hn Hw Hpre Hc flag st q Hq.
  induction pre as [|d pre IH].
  - cbn [app scan_configs]. rewrite (not_wildcard nid Hn), Hw.
    unfold matches in Hc. destruct (network_address c) as [a|].
    + rewrite Hc. unfold bind, gw_status_queue_put, ret. rewrite Hq.
      reflexivity.
    + discriminate Hc.
  - cbn in Hpre. apply andb_true_iff in Hpre. destruct Hpre as [Hd Hpre].
    cbn [app scan_configs]. rewrite (not_wildcard nid Hn), Hw.
    unfold differs in Hd. destruct (network_address d) as [a|].
    + apply negb_true_iff in Hd. rewrite Hd. apply IH. exact Hpre.
    + discriminate Hd.
Qed.

(** A scan that meets no sink of the wanted network puts nothing, also
    when it is cut short by a sink without a network address. *)
Lemma scan_configs_without_match nid wanted (msg : GetConfigsResponse) todo :
  nid <> "+" ->
  py_int nid = Some wanted ->
  existsb (matches wanted) todo = false ->
  forall flag st, snd (scan nid msg todo flag st) = st.
Proof.
  intros Hn Hw. induction todo as [|c todo IH]; intros Hnone flag st.
  - reflexivity.
  - cbn in Hnone. apply orb_false_iff in Hnone. destruct Hnone as [Hc Hnone].
    cbn [scan_configs]. rewrite (not_wildcard nid Hn).
    unfold matches in Hc. destruct (network_address c) as [a|].
    + rewrite Hw, Hc. apply IH. exact Hnone.
    + reflexivity.
Qed.

(** Whatever the scan does, it touches nothing but the status queue. *)
Lemma scan_configs_frame nid (msg : GetConfigsResponse) todo :
  forall flag st,
  exists q, snd (scan nid msg todo flag st) = with_gw_status_queue q st.
Proof.
  induction todo as [|c todo IH]; intros flag st.
  - exists (gw_status_queue st). cbn.
    symmetry. apply with_gw_status_queue_same. reflexivity.
  - cbn [scan_configs].
    assert (Hsame : st = with_gw_status_queue (gw_status_queue st) st)
      by (symmetry; apply with_gw_status_queue_same; reflexivity).
    assert (Hput : forall k : unit -> M DataMessage bool,
               (forall st1, exists q,
                     snd (k tt st1) = with_gw_status_queue q st1) ->
               exists q,
                 snd (bind DataMessage
                           (gw_status_queue_put DataMessage
                                                (ResponseDict msg)) k st)
                 = with_gw_status_queue q st).
    { intros k Hk. unfold bind, gw_status_queue_put.
      destruct (gw_status_queue st) as [q0|] eqn:E.
      - destruct (Hk (mkObserver (start_signal st) (exit_signal st)
                                 (network_id st) (Some (q0 ++ [ResponseDict msg]))
                                 (storage_queue st) (rx_queue st)
                                 (logger st))) as [q Hq].
        exists q. destruct (k tt _) as [[b|e] st2]; cbn in Hq |- *;
          rewrite Hq; reflexivity.
      - exists None. cbn. symmetry.
        apply with_gw_status_queue_same. exact E. }
    destruct (negb (String.eqb nid "+")).
    + destruct (network_address c) as [a|];
        [|exists (gw_status_queue st); exact Hsame].
      destruct (py_int nid) as [wanted|];
        [|exists (gw_status_queue st); exact Hsame].
      destruct (Z.eqb a wanted).
      * apply Hput. intros st1. exists (gw_status_queue st1). cbn.
        symmetry. apply with_gw_status_queue_same. reflexivity.
      * apply IH.
    + apply Hput. intros st1. apply IH.
Qed.

(** ** The response callback *)

Lemma on_response_cb_waiting nid st p topic :
  start_signal st = false ->
  on_response nid p topic st
  = (Return tt,
     with_logger
       (logger st
        ++ [Debug
              "waiting for start signal, received MQTT gw configuration ignored"
              []]) st).
Proof. intros Hs. enter_callback. rewrite Hs. reflexivity. Qed.

Lemma on_response_cb_wildcard st p topic resp q :
  start_signal st = true ->
  get_configs_from_payload p = Some resp ->
  gw_status_queue st = Some q ->
  on_response "+" p topic st
  = (Return tt,
     with_logger
       (logger st
        ++ [match resp_configs resp with
            | [] => configuration_not_processed (resp_gw_id resp) "+"
            | _ :: _ => configuration_received (resp_gw_id resp)
            end])
       (with_gw_status_queue
          (Some (q ++ repeat (ResponseDict resp)
                              (List.length (resp_configs resp)))) st)).
Proof.
  intros Hs Hd Hq. unfold on_response_cb, bind at 1, is_set.
  rewrite Hs. unfold bind at 1, from_payload. rewrite Hd. unfold ret at 1.
  unfold bind. rewrite (scan_configs_wildcard resp _ false st q Hq).
  destruct (resp_configs resp); reflexivity.
Qed.

Lemma on_response_cb_first_match nid wanted st p topic resp q pre c post :
  start_signal st = true ->
  get_configs_from_payload p = Some resp ->
  gw_status_queue st = Some q ->
  nid <> "+" ->
  py_int nid = Some wanted ->
  resp_configs resp = pre ++ c :: post ->
  forallb (differs wanted) pre = true ->
  matches wanted c = true ->
  on_response nid p topic st
  = (Return tt,
     with_logger (logger st ++ [configuration_received (resp_gw_id resp)])
       (with_gw_status_queue (Some (q ++ [ResponseDict resp])) st)).
Proof.
  intros Hs Hd Hq Hn Hw Hcs Hpre Hc. unfold on_response_cb, bind at 1, is_set.
  rewrite Hs. unfold bind at 1, from_payload. rewrite Hd. unfold ret at 1.
  unfold bind. rewrite Hcs.
  rewrite (scan_configs_first_match nid wanted resp pre c post
             Hn Hw Hpre Hc false st q Hq).
  reflexivity.
Qed.

Lemma on_response_cb_no_match nid wanted st p topic resp :
  start_signal st = true ->
  get_configs_from_payload p = Some resp ->
  nid <> "+" ->
  py_int nid = Some wanted ->
  forallb (differs wanted) (resp_configs resp) = true ->
  on_response nid p topic st
  = (Return tt,
     with_logger
       (logger st ++ [configuration_not_processed (resp_gw_id resp) nid])
       st).
Proof.
  intros Hs Hd Hn Hw Hall. unfold on_response_cb, bind at 1, is_set.
  rewrite Hs. unfold bind at 1, from_payload. rewrite Hd. unfold ret at 1.
  unfold bind.
  rewrite (scan_configs_no_match nid wanted resp _ Hn Hw Hall false st).
  reflexivity.
Qed.

(** ** The start signal *)

(** No callback writes the start signal. *)
Lemma deliver_start_signal d st :
  start_signal (snd (dispatch d st)) = start_signal st.
Proof.
  destruct d as [m topics|p topic|p topic]; cbn [deliver].
  - enter_callback. destruct (start_signal st) eqn:Hs; cbn.
    + destruct (storage_queue st) eqn:E; cbn; rewrite ?E; cbn; exact Hs.
    + exact Hs.
  - enter_callback. destruct (start_signal st) eqn:Hs; cbn.
    + destruct (status_from_payload p) as [ev|]; cbn; [|exact Hs].
      destruct (GatewayState_eqb (ev_state ev) ONLINE); cbn; [exact Hs|].
      destruct (gw_status_queue st); cbn; exact Hs.
    + exact Hs.
  - unfold on_response_cb, bind at 1, is_set.
    destruct (start_signal st) eqn:Hs; [|cbn; exact Hs].
    unfold bind at 1, from_payload.
    destruct (get_configs_from_payload p) as [resp|]; cbn; [|exact Hs].
    unfold bind.
    destruct (scan_configs_frame (network_id st) resp (resp_configs resp)
                                 false st) as [q Hq].
    destruct (scan _ _ _ _ _) as [[flag|e] st1]; cbn in Hq; subst st1.
    + destruct flag; cbn; exact Hs.
    + cbn; exact Hs.
Qed.

Lemma step_start_signal a st :
  start_signal st = true -> start_signal (perform [a] st) = true.
Proof.
  intros Hs. destruct a as [d| |]; cbn [run step].
  - rewrite deliver_start_signal. exact Hs.
  - reflexivity.
  - exact Hs.
Qed.

Lemma run_start_signal actions :
  forall st, start_signal st = true -> start_signal (perform actions st) = true.
Proof.
  induction actions as [|a actions IH]; intros st Hs.
  - exact Hs.
  - cbn [run]. apply IH. apply (step_start_signal a st Hs).
Qed.

Lemma run_app actions1 actions2 st :
  perform (actions1 ++ actions2) st = perform actions2 (perform actions1 st).
Proof.
  revert st. induction actions1 as [|a actions1 IH]; intros st.
  - reflexivity.
  - cbn [app run]. apply IH.
Qed.

Lemma snoc_neq {A : Type} (l : list A) (x : A) : l ++ [x] <> l.
Proof.
  intros H. apply (f_equal (@List.length A)) in H.
  rewrite List.length_app in H. cbn in H. lia.
Qed.

(** * The claims *)

(** C1.  For every status event delivered once the start signal is set, a
    [get_configs] request is put on [rx_queue] if and only if the event's
    state is ONLINE.  For an ONLINE event the callback returns after
    putting exactly one request, which carries the event's gateway id, and
    it puts nothing on [gw_status_queue] (nor on [storage_queue]). *)
Theorem status_request_iff_online st p topic ev :
  start_signal st = true ->
  status_from_payload p = Some ev ->
  let result := on_status p topic st in
  let request := request_message "get_configs" (ev_gw_id ev) in
  (rx_queue (snd result) <> rx_queue st <-> ev_state ev = ONLINE)
  /\ (ev_state ev = ONLINE ->
      fst result = Return tt
      /\ rx_queue (snd result) = rx_queue st ++ [request]
      /\ req_gw_id request = ev_gw_id ev
      /\ gw_status_queue (snd result) = gw_status_queue st
      /\ storage_queue (snd result) = storage_queue st).
Proof.
  intros Hs Hd result request. subst result request. split.
  - destruct (ev_state ev) eqn:He.
    + rewrite (on_status_received_online st p topic ev Hs Hd He). cbn.
      split; [reflexivity|]. intros _. apply snoc_neq.
    + split; [|discriminate].
      intros Hneq. exfalso. apply Hneq.
      destruct (gw_status_queue st) as [q|] eqn:Hq.
      * rewrite (on_status_received_offline st p topic ev q Hs Hd He Hq).
        reflexivity.
      * rewrite (on_status_received_offline_no_queue st p topic ev
                   Hs Hd He Hq).
        reflexivity.
  - intros He.
    rewrite (on_status_received_online st p topic ev Hs Hd He). cbn.
    repeat split.
Qed.

(** C4.  For every OFFLINE status event delivered once the start signal is
    set, the callback puts exactly one record on the status queue, the dict
    with the event's gateway id and an empty list of configs, and puts no
    request on [rx_queue]. *)
Theorem status_offline_publishes_empty_record st p topic ev q :
  start_signal st = true ->
  gw_status_queue st = Some q ->
  status_from_payload p = Some ev ->
  ev_state ev = OFFLINE ->
  let result := on_status p topic st in
  fst result = Return tt
  /\ gw_status_queue (snd result)
     = Some (q ++ [StatusDict (ev_gw_id ev) []])
  /\ rx_queue (snd result) = rx_queue st
  /\ storage_queue (snd result) = storage_queue st.
Proof.
  intros Hs Hq Hd He result. subst result.
  rewrite (on_status_received_offline st p topic ev q Hs Hd He Hq). cbn.
  repeat split.
Qed.

(** C5.  While the start signal is unset, each of the three callbacks
    returns without putting anything on the storage queue, on the status
    queue or on the queue of outbound requests, whatever the message. *)
Theorem callbacks_inert_before_start st :
  start_signal st = false ->
  (forall (m : DataMessage) topics,
      fst (on_data_received m topics st) = Return tt
      /\ same_queues st (snd (on_data_received m topics st)))
  /\ (forall p topic,
         fst (on_status p topic st) = Return tt
         /\ same_queues st (snd (on_status p topic st)))
  /\ (forall nid p topic,
         fst (on_response nid p topic st) = Return tt
         /\ same_queues st (snd (on_response nid p topic st))).
Proof.
  intros Hs. split; [|split]; intros.
  - rewrite (on_data_received_waiting st m topics Hs).
    split; [reflexivity | repeat split].
  - rewrite (on_status_received_waiting st p topic Hs).
    split; [reflexivity | repeat split].
  - rewrite (on_response_cb_waiting nid st p topic Hs).
    split; [reflexivity | repeat split].
Qed.

(** C2.  For every response handled once the start signal is set, under a
    filter other than the wildcard that reads as the number [wanted]: the
    sinks are scanned in the order received; at the first sink whose
    network address is [wanted] the whole response is put once on the
    status queue and the scan ends there, so that the sinks after it play
    no part (the scan of the whole list is the scan of the list cut after
    that sink); and when no sink has the address [wanted], nothing is put
    on any queue.  The sinks before the first match are taken to carry a
    network address, as the data model has it. *)
Theorem response_specific_filter_first_match nid wanted st p topic resp :
  start_signal st = true ->
  get_configs_from_payload p = Some resp ->
  nid <> "+" ->
  py_int nid = Some wanted ->
  let result := on_response nid p topic st in
  (forall q pre c post,
      gw_status_queue st = Some q ->
      resp_configs resp = pre ++ c :: post ->
      forallb (differs wanted) pre = true ->
      matches wanted c = true ->
      fst result = Return tt
      /\ gw_status_queue (snd result) = Some (q ++ [ResponseDict resp])
      /\ rx_queue (snd result) = rx_queue st
      /\ storage_queue (snd result) = storage_queue st
      /\ scan nid resp (pre ++ c :: post) false st
         = scan nid resp (pre ++ [c]) false st)
  /\ (existsb (matches wanted) (resp_configs resp) = false ->
      same_queues st (snd result))
  /\ (forallb (differs wanted) (resp_configs resp) = true ->
      fst result = Return tt
      /\ logger (snd result)
         = logger st ++ [configuration_not_processed (resp_gw_id resp) nid]).
Proof.
  intros Hs Hd Hn Hw result. subst result. split; [|split].
  - intros q pre c post Hq Hcs Hpre Hc.
    rewrite (on_response_cb_first_match nid wanted st p topic resp q
               pre c post Hs Hd Hq Hn Hw Hcs Hpre Hc).
    cbn. repeat split.
    rewrite (scan_configs_first_match nid wanted resp pre c post
               Hn Hw Hpre Hc false st q Hq).
    rewrite (scan_configs_first_match nid wanted resp pre c []
               Hn Hw Hpre Hc false st q Hq).
    reflexivity.
  - intros Hnone. unfold on_response_cb, bind at 1, is_set. rewrite Hs.
    unfold bind at 1, from_payload. rewrite Hd. unfold ret at 1.
    unfold bind.
    pose proof (scan_configs_without_match nid wanted resp
                  (resp_configs resp) Hn Hw Hnone false st) as Hsame.
    destruct (scan _ _ _ _ _) as [[flag|e] st1]; cbn in Hsame; subst st1.
    + destruct flag; cbn; repeat split.
    + cbn; repeat split.
  - intros Hall.
    rewrite (on_response_cb_no_match nid wanted st p topic resp
               Hs Hd Hn Hw Hall).
    cbn. split; reflexivity.
Qed.

(** C3.  For every response handled once the start signal is set, under
    the wildcard filter ["+"]: the whole response is put on the status
    queue once per sink, so that as many records are put as the response
    has configs, each of them the full response; nothing goes to the other
    queues. *)
Theorem response_wildcard_once_per_sink st p topic resp q :
  start_signal st = true ->
  gw_status_queue st = Some q ->
  get_configs_from_payload p = Some resp ->
  let result := on_response "+" p topic st in
  exists emitted,
    fst result = Return tt
    /\ gw_status_queue (snd result) = Some (q ++ emitted)
    /\ List.length emitted = List.length (resp_configs resp)
    /\ Forall (fun record => record = ResponseDict resp) emitted
    /\ rx_queue (snd result) = rx_queue st
    /\ storage_queue (snd result) = storage_queue st.
Proof.
  intros Hs Hq Hd result. subst result.
  exists (repeat (ResponseDict resp) (List.length (resp_configs resp))).
  rewrite (on_response_cb_wildcard st p topic resp q Hs Hd Hq). cbn.
  repeat split.
  - apply repeat_length.
  - apply Forall_forall. intros record Hin.
    apply (repeat_spec _ _ _ Hin).
Qed.

(** C6, as the code has it.  Once the start signal is set: every OFFLINE
    status event puts one record on the status queue; an ONLINE status
    event puts none, a record can only follow from the response to the
    request; and under the wildcard filter a response puts one record per
    sink, so that the records are not one to one with the events. *)
Theorem status_records_per_event_and_sink st q :
  start_signal st = true ->
  gw_status_queue st = Some q ->
  (forall p topic ev,
      status_from_payload p = Some ev ->
      ev_state ev = OFFLINE ->
      gw_status_queue (snd (on_status p topic st))
      = Some (q ++ [StatusDict (ev_gw_id ev) []]))
  /\ (forall p topic ev,
         status_from_payload p = Some ev ->
         ev_state ev = ONLINE ->
         gw_status_queue (snd (on_status p topic st)) = Some q)
  /\ (forall p topic resp,
         get_configs_from_payload p = Some resp ->
         gw_status_queue (snd (on_response "+" p topic st))
         = Some (q ++ repeat (ResponseDict resp)
                             (List.length (resp_configs resp)))).
Proof.
  intros Hs Hq. split; [|split].
  - intros p topic ev Hd He.
    rewrite (on_status_received_offline st p topic ev q Hs Hd He Hq).
    reflexivity.
  - intros p topic ev Hd He.
    rewrite (on_status_received_online st p topic ev Hs Hd He).
    exact Hq.
  - intros p topic resp Hd.
    rewrite (on_response_cb_wildcard st p topic resp q Hs Hd Hq).
    reflexivity.
Qed.

(** C7.  The status callback keeps nothing from one delivery to the next:
    the same ONLINE event delivered twice puts two requests on [rx_queue],
    and after any deliveries whatsoever a further delivery of the event
    returns having put its one request and changed nothing else. *)
Theorem status_callback_no_deduplication st p topic ev :
  start_signal st = true ->
  status_from_payload p = Some ev ->
  ev_state ev = ONLINE ->
  let request := request_message "get_configs" (ev_gw_id ev) in
  let delivery := Deliver (GwStatus (DataMessage := DataMessage) p topic) in
  rx_queue (perform [delivery; delivery] st)
  = rx_queue st ++ [request; request]
  /\ (forall history,
         let st_h := perform (map Deliver history) st in
         on_status p topic st_h
         = (Return tt, with_rx_queue (rx_queue st_h ++ [request]) st_h)).
Proof.
  intros Hs Hd He request delivery. subst request delivery. split.
  - change (perform [Deliver (GwStatus p topic); Deliver (GwStatus p topic)]
                    st)
      with (snd (on_status p topic (snd (on_status p topic st)))).
    rewrite (on_status_received_online st p topic ev Hs Hd He).
    cbn [snd].
    rewrite (on_status_received_online
               (with_rx_queue
                  (rx_queue st
                   ++ [request_message "get_configs" (ev_gw_id ev)]) st)
               p topic ev Hs Hd He).
    cbn. rewrite <- app_assoc. reflexivity.
  - intros history st_h.
    apply (on_status_received_online st_h p topic ev); [|exact Hd|exact He].
    apply run_start_signal. exact Hs.
Qed.

(** C8, as the code has it.  For every data message delivered once the
    start signal is set to an observer built with a storage queue: when the
    decorator [decode_topic_message] accepts the message, the callback
    returns having put at the end of the storage queue the very data that
    the decorator decoded, the body adding no transformation or validation
    of its own, and nothing else changes; when the decorator raises, its
    exception leaves the callback and nothing is stored. *)
Theorem data_stored_as_decoded st (message : MqttMessage) q :
  start_signal st = true ->
  storage_queue st = Some q ->
  (forall data topic,
      decode_topic_message_args message = Return (data, topic) ->
      generate_data_received_cb decode_topic_message_args message st
      = (Return tt, with_storage_queue (Some (q ++ [data])) st))
  /\ (forall e,
         decode_topic_message_args message = Raise e ->
         generate_data_received_cb decode_topic_message_args message st
         = (Raise e, st)).
Proof.
  intros Hs Hq. unfold generate_data_received_cb, decode_topic_message.
  split.
  - intros data topic ->. apply (on_data_received_stored st data topic q Hs Hq).
  - intros e ->. reflexivity.
Qed.

(** C9.  The start signal starts unset and, once set, stays set through
    every step: deliveries to the three callbacks, the daemon's start and
    the daemon's stop.  A callback invoked after a start, also after a
    later stop, reads the signal as set. *)
Theorem start_signal_monotone :
  (forall nid has_status has_storage,
      start_signal
        (daemon_build (DataMessage := DataMessage) nid has_status
                      has_storage) = false)
  /\ (forall st actions,
         start_signal st = true ->
         start_signal (perform actions st) = true)
  /\ (forall st before between after,
         fst (is_set DataMessage
                (perform (before ++ Start :: between ++ Stop :: after) st))
         = Return true).
Proof.
  split; [|split].
  - reflexivity.
  - intros st actions Hs. apply run_start_signal. exact Hs.
  - intros st before between after. unfold is_set. cbn [fst].
    f_equal. rewrite run_app. cbn [run step].
    apply run_start_signal. reflexivity.
Qed.

(** C10.  When the observer was built without a storage queue, a data
    message delivered once the start signal is set leaves the observer as
    it was: the callback returns, nothing is put on any queue and nothing
    is logged. *)
Theorem data_discarded_without_storage_queue st (m : DataMessage) topics :
  start_signal st = true ->
  storage_queue st = None ->
  on_data_received m topics st = (Return tt, st).
Proof. exact (on_data_received_no_queue st m topics). Qed.

(** * Further properties of the callbacks *)

(** ** Exceptions *)

(** A scan that raises has put nothing. *)
Lemma scan_configs_raise nid (msg : GetConfigsResponse) todo :
  forall flag st e st',
    scan nid msg todo flag st = (Raise e, st') -> st' = st.
Proof.
  induction todo as [|c todo IH]; intros flag st e st' H.
  - discriminate H.
  - destruct (String.eqb_spec nid "+") as [->|Hn].
    + destruct (gw_status_queue st) as [q|] eqn:Hq.
      * rewrite (scan_configs_wildcard msg (c :: todo) flag st q Hq) in H.
        discriminate H.
      * rewrite (scan_configs_wildcard_no_queue msg c todo flag st Hq) in H.
        injection H as _ <-; reflexivity.
    + cbn [scan_configs] in H. rewrite (not_wildcard nid Hn) in H.
      destruct (network_address c) as [a|]; [|injection H as _ <-; reflexivity].
      destruct (py_int nid) as [wanted|];
        [|injection H as _ <-; reflexivity].
      destruct (Z.eqb a wanted).
      * unfold bind, gw_status_queue_put, ret in H.
        destruct (gw_status_queue st); [discriminate H|].
        injection H as _ <-; reflexivity.
      * apply (IH _ _ _ _ H).
Qed.

Lemma on_response_cb_raise nid st p topic e st' :
  on_response nid p topic st = (Raise e, st') -> st' = st.
Proof.
  unfold on_response_cb, bind at 1, is_set.
  destruct (start_signal st); [|cbn; discriminate].
  unfold bind at 1, from_payload.
  destruct (get_configs_from_payload p) as [resp|]; cbn;
    [|intros [= _ <-]; reflexivity].
  unfold bind.
  destruct (scan nid resp (resp_configs resp) false st)
    as [[flag|e'] st1] eqn:Hscan.
  - destruct flag; cbn; discriminate.
  - intros [= _ <-]. apply (scan_configs_raise _ _ _ _ _ _ _ Hscan).
Qed.

(** X1.  A callback that raises leaves the observer exactly as it found it:
    no queue has received anything and nothing has been logged. *)
Theorem raising_callback_changes_nothing
        (d : Delivery DataMessage Payload) st e :
  fst (deliver status_from_payload get_configs_from_payload py_int d st)
  = Raise e ->
  snd (deliver status_from_payload get_configs_from_payload py_int d st)
  = st.
Proof.
  destruct d as [m topics|p topic|p topic]; cbn [deliver].
  - enter_callback. destruct (start_signal st); cbn.
    + destruct (storage_queue st) eqn:Hq; cbn; rewrite ?Hq; cbn;
        discriminate.
    + discriminate.
  - enter_callback. destruct (start_signal st); cbn; [|discriminate].
    destruct (status_from_payload p) as [ev|]; cbn; [|reflexivity].
    destruct (GatewayState_eqb (ev_state ev) ONLINE); cbn; [discriminate|].
    destruct (gw_status_queue st); cbn; [discriminate|reflexivity].
  - intros H.
    destruct (on_response (network_id st) p topic st) as [o st'] eqn:Hrun.
    cbn in H. subst o. cbn. apply (on_response_cb_raise _ _ _ _ _ _ Hrun).
Qed.

(** X2.  The status callback raises in two cases only, both with the start
    signal set: the payload does not decode ([PayloadError]), or it decodes to
    an OFFLINE event and the observer was built without a status queue
    ([AttributeError]).  An ONLINE event never raises. *)
Theorem status_callback_raises_iff st p topic e :
  fst (on_status p topic st) = Raise e
  <-> start_signal st = true
      /\ ((status_from_payload p = None /\ e = PayloadError)
          \/ (exists ev,
                status_from_payload p = Some ev
                /\ ev_state ev = OFFLINE
                /\ gw_status_queue st = None
                /\ e = AttributeError)).
Proof.
  split.
  - destruct (start_signal st) eqn:Hs.
    + destruct (status_from_payload p) as [ev|] eqn:Hd.
      * destruct (ev_state ev) eqn:He.
        -- rewrite (on_status_received_online st p topic ev Hs Hd He).
           discriminate.
        -- destruct (gw_status_queue st) as [q|] eqn:Hq.
           ++ rewrite (on_status_received_offline st p topic ev q Hs Hd He Hq).
              discriminate.
           ++ rewrite (on_status_received_offline_no_queue st p topic ev
                         Hs Hd He Hq).
              cbn. intros [= <-]. split; [reflexivity|]. right.
              exists ev. repeat split; assumption.
      * rewrite (on_status_received_undecoded st p topic Hs Hd).
        cbn. intros [= <-]. split; [reflexivity|]. left. split; reflexivity.
    + rewrite (on_status_received_waiting st p topic Hs). discriminate.
  - intros [Hs [[Hd ->]|(ev & Hd & He & Hq & ->)]].
    + rewrite (on_status_received_undecoded st p topic Hs Hd). reflexivity.
    + rewrite (on_status_received_offline_no_queue st p topic ev Hs Hd He Hq).
      reflexivity.
Qed.

(** X3.  Under the wildcard the response callback raises in two cases only,
    both with the start signal set: the payload does not decode, or the
    response has at least one sink and the observer was built without a
    status queue. *)
Theorem wildcard_response_raises_iff st p topic e :
  fst (on_response "+" p topic st) = Raise e
  <-> start_signal st = true
      /\ ((get_configs_from_payload p = None /\ e = PayloadError)
          \/ (exists resp,
                get_configs_from_payload p = Some resp
                /\ resp_configs resp <> []
                /\ gw_status_queue st = None
                /\ e = AttributeError)).
Proof.
  unfold on_response_cb, bind at 1, is_set.
  destruct (start_signal st) eqn:Hs.
  - unfold bind at 1, from_payload.
    destruct (get_configs_from_payload p) as [resp|] eqn:Hd.
    + unfold ret at 1. unfold bind.
      destruct (gw_status_queue st) as [q|] eqn:Hq.
      * rewrite (scan_configs_wildcard resp _ false st q Hq).
        split.
        -- destruct (resp_configs resp); cbn; discriminate.
        -- intros [_ [[Hnone _]|(resp' & _ & _ & Hnoq & _)]]; discriminate.
      * destruct (resp_configs resp) as [|c rest] eqn:Hcs.
        -- cbn. split; [discriminate|].
           intros [_ [[Hnone _]|(resp' & Hsome & Hne & _)]];
             [discriminate|].
           injection Hsome as <-. exfalso. apply Hne. exact Hcs.
        -- rewrite (scan_configs_wildcard_no_queue resp c rest false st Hq).
           cbn. split.
           ++ intros [= <-]. split; [reflexivity|]. right. exists resp.
              repeat split; try assumption. rewrite Hcs. discriminate.
           ++ intros [_ [[Hnone _]|(resp' & _ & _ & _ & ->)]];
                [discriminate|reflexivity].
    + cbn. split.
      * intros [= <-]. split; [reflexivity|]. left. split; reflexivity.
      * intros [_ [[_ ->]|(resp' & Hsome & _)]];
          [reflexivity|discriminate].
  - cbn. split; [discriminate|]. intros [Hfalse _]. discriminate.
Qed.

(** ** What the response callback puts and logs *)

Lemma app_cons_neq {A : Type} (l l' : list A) (x : A) : l ++ x :: l' <> l.
Proof.
  intros H. apply (f_equal (@List.length A)) in H.
  rewrite List.length_app in H. cbn in H. lia.
Qed.

(** The callback in terms of its scan. *)
Lemma on_response_cb_scan nid st p topic resp :
  start_signal st = true ->
  get_configs_from_payload p = Some resp ->
  on_response nid p topic st
  = match scan nid resp (resp_configs resp) false st with
    | (Return processed, st1) =>
        (Return tt,
         with_logger
           (logger st1
            ++ [if processed then configuration_received (resp_gw_id resp)
                else configuration_not_processed (resp_gw_id resp) nid])
           st1)
    | (Raise e, st1) => (Raise e, st1)
    end.
Proof.
  intros Hs Hd. unfold on_response_cb, bind at 1, is_set. rewrite Hs.
  unfold bind at 1, from_payload. rewrite Hd. unfold ret at 1. unfold bind.
  destruct (scan nid resp (resp_configs resp) false st) as [[flag|e] st1];
    [destruct flag|]; reflexivity.
Qed.

(** A scan either puts nothing and hands back the flag it was given, or
    returns [True] having put the response one or more times; under a filter
    other than the wildcard, once. *)
Lemma scan_configs_effect nid (msg : GetConfigsResponse) todo :
  forall flag st,
    (snd (scan nid msg todo flag st) = st
     /\ forall b, fst (scan nid msg todo flag st) = Return b -> b = flag)
    \/ (exists q k,
          gw_status_queue st = Some q
          /\ scan nid msg todo flag st
             = (Return true,
                with_gw_status_queue
                  (Some (q ++ repeat (ResponseDict msg) (S k))) st)
          /\ (nid <> "+" -> k = 0%nat)).
Proof.
  destruct (String.eqb_spec nid "+") as [->|Hn].
  - intros flag st. destruct todo as [|c todo].
    + left. split; [reflexivity|]. cbn. intros b [= <-]. reflexivity.
    + destruct (gw_status_queue st) as [q|] eqn:Hq.
      * right. exists q, (List.length todo). split; [reflexivity|].
        split; [|intros Hne; exfalso; apply Hne; reflexivity].
        apply (scan_configs_wildcard msg (c :: todo) flag st q Hq).
      * left.
        rewrite (scan_configs_wildcard_no_queue msg c todo flag st Hq).
        split; [reflexivity|]. cbn. discriminate.
  - induction todo as [|c todo IH]; intros flag st.
    + left. split; [reflexivity|]. cbn. intros b [= <-]. reflexivity.
    + cbn [scan_configs]. rewrite (not_wildcard nid Hn).
      destruct (network_address c) as [a|];
        [|left; split; [reflexivity|cbn; discriminate]].
      destruct (py_int nid) as [wanted|];
        [|left; split; [reflexivity|cbn; discriminate]].
      destruct (Z.eqb a wanted); [|apply IH].
      unfold bind, gw_status_queue_put, ret.
      destruct (gw_status_queue st) as [q|] eqn:Hq.
      * right. exists q, 0%nat. split; [reflexivity|].
        split; [reflexivity|]. intros _. reflexivity.
      * left. split; [reflexivity|]. cbn. discriminate.
Qed.

(** X4.  Under any filter other than the wildcard, a response puts at most
    one record on the status queue, whatever its sinks are (with or without
    network addresses, matching once or many times) and whether or not the
    callback returns: the queue is left as it was or has gained the
    response, once. *)
Theorem specific_filter_at_most_one_record nid st p topic :
  nid <> "+" ->
  gw_status_queue (snd (on_response nid p topic st)) = gw_status_queue st
  \/ (exists q resp,
        get_configs_from_payload p = Some resp
        /\ gw_status_queue st = Some q
        /\ gw_status_queue (snd (on_response nid p topic st))
           = Some (q ++ [ResponseDict resp])).
Proof.
  intros Hn. destruct (start_signal st) eqn:Hs.
  - destruct (get_configs_from_payload p) as [resp|] eqn:Hd.
    + rewrite (on_response_cb_scan nid st p topic resp Hs Hd).
      destruct (scan_configs_effect nid resp (resp_configs resp) false st)
        as [[Hsame _]|(q & k & Hq & Hrun & Hk)].
      * left.
        destruct (scan nid resp (resp_configs resp) false st)
          as [[flag|e] st1]; cbn in Hsame; subst st1; reflexivity.
      * right. exists q, resp. rewrite Hrun, (Hk Hn).
        repeat split; assumption.
    + left. unfold on_response_cb, bind, is_set, from_payload.
      rewrite Hs, Hd. reflexivity.
  - left. rewrite (on_response_cb_waiting nid st p topic Hs). reflexivity.
Qed.

(** X5.  When the response callback returns from a decoded response, its
    one diagnostic tells the truth: it logs [configuration_received] exactly
    when the status queue has gained something, and
    [configuration_not_processed], naming the filter, exactly when the queue
    is as it was. *)
Theorem response_diagnostic_matches_queue nid st p topic resp :
  start_signal st = true ->
  get_configs_from_payload p = Some resp ->
  fst (on_response nid p topic st) = Return tt ->
  (gw_status_queue (snd (on_response nid p topic st)) = gw_status_queue st
   /\ logger (snd (on_response nid p topic st))
      = logger st ++ [configuration_not_processed (resp_gw_id resp) nid])
  \/ (gw_status_queue (snd (on_response nid p topic st))
      <> gw_status_queue st
      /\ logger (snd (on_response nid p topic st))
         = logger st ++ [configuration_received (resp_gw_id resp)]).
Proof.
  intros Hs Hd. rewrite (on_response_cb_scan nid st p topic resp Hs Hd).
  destruct (scan_configs_effect nid resp (resp_configs resp) false st)
    as [[Hsame Hflag]|(q & k & Hq & Hrun & _)].
  - destruct (scan nid resp (resp_configs resp) false st)
      as [[flag|e] st1]; cbn in Hsame; subst st1; cbn; [|discriminate].
    intros _. rewrite (Hflag flag eq_refl). left. split; reflexivity.
  - rewrite Hrun. cbn. intros _. right. split; [|reflexivity].
    rewrite Hq. intros [= H]. apply (app_cons_neq _ _ _ H).
Qed.

(** When every sink has a network address the scan runs to the first match
    or to the end. *)
Lemma scan_configs_addressed nid wanted (msg : GetConfigsResponse) todo :
  nid <> "+" ->
  py_int nid = Some wanted ->
  forallb has_network_address todo = true ->
  forall flag st q,
    gw_status_queue st = Some q ->
    scan nid msg todo flag st
    = if existsb (matches wanted) todo
      then (Return true,
            with_gw_status_queue (Some (q ++ [ResponseDict msg])) st)
      else (Return flag, st).
Proof.
  intros Hn Hw. induction todo as [|c todo IH]; intros Hall flag st q Hq.
  - reflexivity.
  - cbn in Hall. apply andb_true_iff in Hall. destruct Hall as [Hc Hall].
    cbn [scan_configs existsb]. rewrite (not_wildcard nid Hn), Hw.
    unfold has_network_address in Hc. unfold matches at 1.
    destruct (network_address c) as [a|]; [|discriminate Hc].
    destruct (Z.eqb a wanted); cbn [orb].
    + unfold bind, gw_status_queue_put, ret. rewrite Hq. reflexivity.
    + apply (IH Hall flag st q Hq).
Qed.

(** X6.  For a response whose sinks all carry a network address, under a
    filter that reads as the number [wanted]: the response is put on the
    status queue, once, if and only if some sink has the address [wanted];
    the callback returns and logs the matching diagnostic; the number of
    matching sinks makes no difference. *)
Theorem specific_filter_forwards_iff_some_sink_matches
        nid wanted st p topic resp q :
  start_signal st = true ->
  get_configs_from_payload p = Some resp ->
  gw_status_queue st = Some q ->
  nid <> "+" ->
  py_int nid = Some wanted ->
  forallb has_network_address (resp_configs resp) = true ->
  on_response nid p topic st
  = if existsb (matches wanted) (resp_configs resp)
    then (Return tt,
          with_logger
            (logger st ++ [configuration_received (resp_gw_id resp)])
            (with_gw_status_queue (Some (q ++ [ResponseDict resp])) st))
    else (Return tt,
          with_logger
            (logger st
             ++ [configuration_not_processed (resp_gw_id resp) nid]) st).
Proof.
  intros Hs Hd Hq Hn Hw Hall.
  rewrite (on_response_cb_scan nid st p topic resp Hs Hd).
  rewrite (scan_configs_addressed nid wanted resp (resp_configs resp)
             Hn Hw Hall false st q Hq).
  destruct (existsb (matches wanted) (resp_configs resp)); reflexivity.
Qed.

(** X7.  A response without sinks is never forwarded, whatever the filter,
    the wildcard and unreadable filters included: the callback returns, puts
    nothing and logs that the configuration was not processed. *)
Theorem response_without_sinks_not_forwarded nid st p topic resp :
  start_signal st = true ->
  get_configs_from_payload p = Some resp ->
  resp_configs resp = [] ->
  on_response nid p topic st
  = (Return tt,
     with_logger
       (logger st ++ [configuration_not_processed (resp_gw_id resp) nid])
       st).
Proof.
  intros Hs Hd Hcs.
  rewrite (on_response_cb_scan nid st p topic resp Hs Hd), Hcs.
  reflexivity.
Qed.

(** X8.  Under a filter that reads as the number [wanted], a sink without
    the key [network_address] that is reached before any match raises
    [KeyError] out of the callback: nothing is put or logged, also when a
    later sink would have matched. *)
Theorem sink_without_address_raises_KeyError
        nid wanted st p topic resp pre c post :
  start_signal st = true ->
  get_configs_from_payload p = Some resp ->
  nid <> "+" ->
  py_int nid = Some wanted ->
  resp_configs resp = pre ++ c :: post ->
  forallb (differs wanted) pre = true ->
  network_address c = None ->
  on_response nid p topic st = (Raise KeyError, st).
Proof.
  intros Hs Hd Hn Hw Hcs Hpre Hc.
  rewrite (on_response_cb_scan nid st p topic resp Hs Hd), Hcs.
  assert (Hscan : scan nid resp (pre ++ c :: post) false st
                  = (Raise KeyError, st)).
  { clear Hcs. induction pre as [|d pre IH].
    - cbn [app scan_configs]. rewrite (not_wildcard nid Hn), Hc. reflexivity.
    - cbn in Hpre. apply andb_true_iff in Hpre. destruct Hpre as [Hd' Hpre].
      cbn [app scan_configs]. rewrite (not_wildcard nid Hn), Hw.
      unfold differs in Hd'. destruct (network_address d) as [a|];
        [|discriminate Hd'].
      apply negb_true_iff in Hd'. rewrite Hd'. apply IH. exact Hpre. }
  rewrite Hscan. reflexivity.
Qed.

(** X9.  A filter that is neither the wildcard nor a number is found out
    only when a response with a sink arrives: the first sink raises
    [ValueError] if it has a network address and [KeyError] if it has none,
    and nothing is put or logged. *)
Theorem unreadable_filter_raises_at_first_sink nid st p topic resp c rest :
  start_signal st = true ->
  get_configs_from_payload p = Some resp ->
  nid <> "+" ->
  py_int nid = None ->
  resp_configs resp = c :: rest ->
  on_response nid p topic st
  = (Raise (if has_network_address c then ValueError else KeyError), st).
Proof.
  intros Hs Hd Hn Hw Hcs.
  rewrite (on_response_cb_scan nid st p topic resp Hs Hd), Hcs.
  cbn [scan_configs]. rewrite (not_wildcard nid Hn), Hw.
  unfold has_network_address.
  destruct (network_address c); reflexivity.
Qed.

(** ** Streams of deliveries *)

Lemma extends_refl {A : Type} (l : list A) : extends l l.
Proof. exists []. symmetry. apply app_nil_r. Qed.

Lemma extends_trans {A : Type} (l1 l2 l3 : list A) :
  extends l1 l2 -> extends l2 l3 -> extends l1 l3.
Proof.
  intros [a1 ->] [a2 ->]. exists (a1 ++ a2). symmetry. apply app_assoc.
Qed.

Lemma queue_extends_refl {A : Type} (q : option (list A)) :
  queue_extends q q.
Proof. destruct q; cbn; [apply extends_refl|exact I]. Qed.

Lemma queue_extends_trans {A : Type} (q1 q2 q3 : option (list A)) :
  queue_extends q1 q2 -> queue_extends q2 q3 -> queue_extends q1 q3.
Proof.
  destruct q1, q2, q3; cbn; try tauto. apply extends_trans.
Qed.

Lemma observer_extends_refl st : observer_extends st st.
Proof.
  unfold observer_extends.
  repeat split; try apply queue_extends_refl; apply extends_refl.
Qed.

Lemma observer_extends_trans st1 st2 st3 :
  observer_extends st1 st2 -> observer_extends st2 st3 ->
  observer_extends st1 st3.
Proof.
  unfold observer_extends.
  intros (Ha & Hb & Hc & Hd & He & Hf & Hg) (Ha' & Hb' & Hc' & Hd' & He' & Hf' & Hg').
  repeat split; try congruence.
  - apply (queue_extends_trans _ _ _ Hd Hd').
  - apply (queue_extends_trans _ _ _ He He').
  - apply (extends_trans _ _ _ Hf Hf').
  - apply (extends_trans _ _ _ Hg Hg').
Qed.

Lemma observer_extends_logged st record :
  observer_extends st (with_logger (logger st ++ [record]) st).
Proof.
  unfold observer_extends. cbn.
  repeat split; try apply queue_extends_refl; try apply extends_refl.
  exists [record]. reflexivity.
Qed.

Lemma observer_extends_status_put st q added :
  gw_status_queue st = Some q ->
  observer_extends st (with_gw_status_queue (Some (q ++ added)) st).
Proof.
  intros Hq. unfold observer_extends. cbn. rewrite Hq. cbn.
  repeat split; try apply queue_extends_refl; try apply extends_refl.
  exists added. reflexivity.
Qed.

(** One delivery only adds. *)
Lemma deliver_extends d st : observer_extends st (snd (dispatch d st)).
Proof.
  destruct d as [m topics|p topic|p topic]; cbn [deliver].
  - destruct (start_signal st) eqn:Hs.
    + destruct (storage_queue st) as [q|] eqn:Hq.
      * rewrite (on_data_received_stored st m topics q Hs Hq).
        unfold observer_extends. cbn. rewrite Hq. cbn.
        repeat split; try apply queue_extends_refl; try apply extends_refl.
        exists [m]. reflexivity.
      * rewrite (on_data_received_no_queue st m topics Hs Hq).
        apply observer_extends_refl.
    + rewrite (on_data_received_waiting st m topics Hs).
      apply observer_extends_logged.
  - destruct (start_signal st) eqn:Hs.
    + destruct (status_from_payload p) as [ev|] eqn:Hd.
      * destruct (ev_state ev) eqn:He.
        -- rewrite (on_status_received_online st p topic ev Hs Hd He).
           unfold observer_extends. cbn.
           repeat split; try apply queue_extends_refl;
             try apply extends_refl.
           eexists. reflexivity.
        -- destruct (gw_status_queue st) as [q|] eqn:Hq.
           ++ rewrite (on_status_received_offline st p topic ev q Hs Hd He Hq).
              apply (observer_extends_status_put st q _ Hq).
           ++ rewrite (on_status_received_offline_no_queue st p topic ev
                         Hs Hd He Hq).
              apply observer_extends_refl.
      * rewrite (on_status_received_undecoded st p topic Hs Hd).
        apply observer_extends_refl.
    + rewrite (on_status_received_waiting st p topic Hs).
      apply observer_extends_logged.
  - destruct (start_signal st) eqn:Hs.
    + destruct (get_configs_from_payload p) as [resp|] eqn:Hd.
      * rewrite (on_response_cb_scan (network_id st) st p topic resp Hs Hd).
        destruct (scan_configs_effect (network_id st) resp
                                      (resp_configs resp) false st)
          as [[Hsame _]|(q & k & Hq & Hrun & _)].
        -- destruct (scan (network_id st) resp (resp_configs resp) false st)
             as [[flag|e] st1]; cbn in Hsame; subst st1; cbn [snd].
           ++ apply observer_extends_logged.
           ++ apply observer_extends_refl.
        -- rewrite Hrun. cbn [snd].
           apply (observer_extends_trans
                    st (with_gw_status_queue
                          (Some (q ++ repeat (ResponseDict resp) (S k))) st)).
           ++ apply (observer_extends_status_put st q _ Hq).
           ++ apply observer_extends_logged.
      * unfold on_response_cb, bind, is_set, from_payload.
        rewrite Hs, Hd. apply observer_extends_refl.
    + rewrite (on_response_cb_waiting (network_id st) st p topic Hs).
      apply observer_extends_logged.
Qed.

(** X10.  Whatever messages are delivered, in whatever order, and whether
    the callbacks return or raise: the start and exit signals and the filter
    stay as they are, a queue the observer was built without stays absent,
    and every queue and the log keep what they held, in order, with new
    items only at the end. *)
Theorem deliveries_only_append (ds : list (Delivery DataMessage Payload)) :
  forall st, observer_extends st (perform (map Deliver ds) st).
Proof.
  induction ds as [|d ds IH]; intros st.
  - apply observer_extends_refl.
  - cbn [map run step].
    apply (observer_extends_trans st (snd (dispatch d st))).
    + apply deliver_extends.
    + apply IH.
Qed.

(** X11.  Each callback writes to its own queues only.  The data callback
    as registered raises exactly when its decorator raises, and with the
    decorator's exception (the body under it never raises), and it never
    touches the status queue or the request queue; the status callback never
    touches the storage queue; the response callback never touches the
    storage queue or the request queue.  This holds for every message and
    observer, whether the callback returns or raises. *)
Theorem callbacks_keep_to_their_queues st :
  (forall (message : MqttMessage),
      (forall e,
          fst (generate_data_received_cb decode_topic_message_args message st)
          = Raise e
          <-> decode_topic_message_args message = Raise e)
      /\ gw_status_queue
           (snd (generate_data_received_cb decode_topic_message_args
                                           message st))
         = gw_status_queue st
      /\ rx_queue
           (snd (generate_data_received_cb decode_topic_message_args
                                           message st))
         = rx_queue st)
  /\ (forall p topic,
         storage_queue (snd (on_status p topic st)) = storage_queue st)
  /\ (forall nid p topic,
         storage_queue (snd (on_response nid p topic st)) = storage_queue st
         /\ rx_queue (snd (on_response nid p topic st)) = rx_queue st).
Proof.
  split; [|split].
  - intros message. unfold generate_data_received_cb, decode_topic_message.
    destruct (decode_topic_message_args message) as [[m topics]|e0].
    + assert (Hbody : fst (on_data_received m topics st) = Return tt
                      /\ gw_status_queue (snd (on_data_received m topics st))
                         = gw_status_queue st
                      /\ rx_queue (snd (on_data_received m topics st))
                         = rx_queue st).
      { destruct (start_signal st) eqn:Hs.
        - destruct (storage_queue st) as [q|] eqn:Hq.
          + rewrite (on_data_received_stored st m topics q Hs Hq).
            repeat split.
          + rewrite (on_data_received_no_queue st m topics Hs Hq).
            repeat split.
        - rewrite (on_data_received_waiting st m topics Hs). repeat split. }
      destruct Hbody as (Hret & Hgq & Hrq).
      split; [|split; assumption].
      intros e. rewrite Hret. split; discriminate.
    + cbn. split; [|split; reflexivity].
      intros e. split; intros [= <-]; reflexivity.
  - intros p topic. destruct (start_signal st) eqn:Hs.
    + destruct (status_from_payload p) as [ev|] eqn:Hd.
      * destruct (ev_state ev) eqn:He.
        -- rewrite (on_status_received_online st p topic ev Hs Hd He).
           reflexivity.
        -- destruct (gw_status_queue st) as [q|] eqn:Hq.
           ++ rewrite (on_status_received_offline st p topic ev q Hs Hd He Hq).
              reflexivity.
           ++ rewrite (on_status_received_offline_no_queue st p topic ev
                         Hs Hd He Hq).
              reflexivity.
      * rewrite (on_status_received_undecoded st p topic Hs Hd).
        reflexivity.
    + rewrite (on_status_received_waiting st p topic Hs). reflexivity.
  - intros nid p topic. destruct (start_signal st) eqn:Hs.
    + destruct (get_configs_from_payload p) as [resp|] eqn:Hd.
      * rewrite (on_response_cb_scan nid st p topic resp Hs Hd).
        destruct (scan_configs_frame nid resp (resp_configs resp) false st)
          as [gq Hgq].
        destruct (scan nid resp (resp_configs resp) false st)
          as [[flag|e] st1]; cbn in Hgq; subst st1; split; reflexivity.
      * unfold on_response_cb, bind, is_set, from_payload.
        rewrite Hs, Hd. split; reflexivity.
    + rewrite (on_response_cb_waiting nid st p topic Hs). split; reflexivity.
Qed.

(** Before the start signal a message that gets past the decorator of its
    callback costs one log record and nothing else; one that does not, costs
    nothing. *)
Lemma receive_waiting (i : Incoming Payload MqttMessage) st :
  start_signal st = false ->
  exists record,
    snd (receive status_from_payload get_configs_from_payload py_int
                 decode_topic_message_args i st)
    = if reaches_gate decode_topic_message_args i
      then with_logger (logger st ++ [record]) st
      else st.
Proof.
  intros Hs. destruct i as [message|p topic|p topic]; cbn [receive reaches_gate].
  - unfold generate_data_received_cb, decode_topic_message.
    destruct (decode_topic_message_args message) as [[m topics]|e].
    + rewrite (on_data_received_waiting st m topics Hs).
      eexists; reflexivity.
    + exists (Debug "" []). reflexivity.
  - rewrite (on_status_received_waiting st p topic Hs).
    eexists; reflexivity.
  - rewrite (on_response_cb_waiting (network_id st) st p topic Hs).
    eexists; reflexivity.
Qed.

(** X12.  An observer whose start signal is never set drops every message:
    after any sequence of arrivals on its three subscriptions the three
    queues hold what they held and the signal is still unset.  The log has
    grown by exactly one record for each arrival that got past the decorator
    of its callback; a data message on which [decode_topic_message] raises
    is dropped without a record. *)
Theorem unstarted_observer_drops_every_delivery
        (incoming : list (Incoming Payload MqttMessage)) :
  forall st,
    start_signal st = false ->
    same_queues
      st
      (receive_all status_from_payload get_configs_from_payload py_int
                   decode_topic_message_args incoming st)
    /\ start_signal
         (receive_all status_from_payload get_configs_from_payload py_int
                      decode_topic_message_args incoming st)
       = false
    /\ List.length
         (logger
            (receive_all status_from_payload get_configs_from_payload py_int
                         decode_topic_message_args incoming st))
       = (List.length (logger st)
          + List.length
              (filter (reaches_gate decode_topic_message_args) incoming))%nat.
Proof.
  induction incoming as [|i incoming IH]; intros st Hs.
  - cbn. repeat split; try assumption. lia.
  - cbn [receive_all filter].
    destruct (receive_waiting i st Hs) as [record ->].
    destruct (reaches_gate decode_topic_message_args i).
    + destruct (IH (with_logger (logger st ++ [record]) st) Hs)
        as ((Hsq & Hgq & Hrq) & Hsig & Hlen).
      repeat split; try assumption.
      rewrite Hlen. cbn. rewrite List.length_app. cbn. lia.
    + apply (IH st Hs).
Qed.

(** X13.  A started observer with a storage queue stores a stream of data
    messages in the order of arrival: the storage queue gains exactly the
    data that the decorator decodes from the messages it accepts, first in
    first out; a message on which the decorator raises leaves no trace; and
    nothing else about the observer changes. *)
Theorem data_stream_stored_in_order (messages : list MqttMessage) :
  forall st q,
    start_signal st = true ->
    storage_queue st = Some q ->
    receive_all status_from_payload get_configs_from_payload py_int
                decode_topic_message_args
                (map (DataIn (Payload := Payload)) messages) st
    = with_storage_queue
        (Some (q ++ decoded_data decode_topic_message_args messages)) st.
Proof.
  induction messages as [|message messages IH]; intros st q Hs Hq.
  - cbn. rewrite app_nil_r. destruct st; cbn in *; subst; reflexivity.
  - cbn [map receive_all receive decoded_data flat_map].
    unfold generate_data_received_cb, decode_topic_message.
    fold (decoded_data decode_topic_message_args messages).
    destruct (decode_topic_message_args message) as [[m topics]|e].
    + rewrite (on_data_received_stored st m topics q Hs Hq). cbn [snd].
      rewrite (IH (with_storage_queue (Some (q ++ [m])) st) (q ++ [m])
                  Hs eq_refl).
      unfold with_storage_queue. cbn. rewrite <- app_assoc. reflexivity.
    + cbn [snd app]. apply (IH st q Hs Hq).
Qed.

(** X14.  A started observer with a status queue splits a stream of
    decodable status payloads in two, each part in the order delivered: the
    request queue gains one [get_configs] request per ONLINE event, the
    status queue gains one empty record per OFFLINE event, and the storage
    queue and the log are left alone. *)
Theorem status_stream_split_in_order
        (payloads : list (Payload * list string)) :
  forall events st q,
    start_signal st = true ->
    gw_status_queue st = Some q ->
    map (fun pt => status_from_payload (fst pt)) payloads
    = map Some events ->
    perform (status_deliveries payloads) st
    = with_rx_queue (rx_queue st ++ requests_for events)
        (with_gw_status_queue (Some (q ++ records_for events)) st).
Proof.
  induction payloads as [|[p topic] payloads IH];
    intros events st q Hs Hq Hdec.
  - destruct events; [|discriminate Hdec].
    cbn. rewrite !app_nil_r. destruct st; cbn in *; subst; reflexivity.
  - destruct events as [|ev events]; [discriminate Hdec|].
    cbn [map fst] in Hdec. injection Hdec as Hd Hdec.
    cbn [status_deliveries map run step deliver fst snd].
    fold (status_deliveries (DataMessage := DataMessage) payloads).
    destruct (ev_state ev) eqn:He.
    + rewrite (on_status_received_online st p topic ev Hs Hd He). cbn [snd].
      rewrite (IH events
                  (with_rx_queue
                     (rx_queue st
                      ++ [request_message "get_configs" (ev_gw_id ev)]) st)
                  q Hs Hq Hdec).
      unfold requests_for, records_for. cbn [filter].
      rewrite He. cbn [GatewayState_eqb negb map].
      unfold with_rx_queue, with_gw_status_queue. cbn.
      rewrite <- app_assoc. reflexivity.
    + rewrite (on_status_received_offline st p topic ev q Hs Hd He Hq).
      cbn [snd].
      rewrite (IH events
                  (with_gw_status_queue
                     (Some (q ++ [StatusDict (ev_gw_id ev) []])) st)
                  (q ++ [StatusDict (ev_gw_id ev) []]) Hs eq_refl Hdec).
      unfold requests_for, records_for. cbn [filter].
      rewrite He. cbn [GatewayState_eqb negb map].
      unfold with_rx_queue, with_gw_status_queue. cbn.
      rewrite <- app_assoc. reflexivity.
Qed.

End Facts.

(** * The claims on concrete deliveries *)

(** An ONLINE event on a started observer: one request for its gateway. *)
Lemma status_request_iff_online_witness :
  start_signal (Demo.ready "+") = true
  /\ Demo.status_of (Demo.WireStatus Demo.online_event)
     = Some Demo.online_event
  /\ rx_queue (snd (Demo.on_status (Demo.WireStatus Demo.online_event) []
                                    (Demo.ready "+")))
     = [request_message "get_configs" "gw1"].
Proof.
  split; [reflexivity|]. split; [reflexivity|].
  destruct (status_request_iff_online
              Demo.status_of (Demo.ready "+")
              (Demo.WireStatus Demo.online_event) [] Demo.online_event
              eq_refl eq_refl) as [_ Honline].
  destruct (Honline eq_refl) as (_ & Hrx & _). exact Hrx.
Defined.

(** Filter ["2"] on sinks of networks 1, 2, 2: one record, put at the second
    sink. *)
Lemma response_specific_filter_first_match_witness :
  start_signal (Demo.ready "2") = true
  /\ Demo.decimal_int "2" = Some 2
  /\ gw_status_queue
       (snd (Demo.on_response "2" (Demo.WireConfigs Demo.three_sinks) []
                              (Demo.ready "2")))
     = Some [ResponseDict Demo.three_sinks].
Proof.
  split; [reflexivity|]. split; [reflexivity|].
  destruct (response_specific_filter_first_match
              Demo.configs_of Demo.decimal_int "2" 2 (Demo.ready "2")
              (Demo.WireConfigs Demo.three_sinks) [] Demo.three_sinks
              eq_refl eq_refl ltac:(discriminate) eq_refl) as [Hfirst _].
  destruct (Hfirst [] [Demo.sink 1 "sink0"] (Demo.sink 2 "sink1")
                   [Demo.sink 2 "sink2"] eq_refl eq_refl eq_refl eq_refl)
    as (_ & Hq & _).
  exact Hq.
Defined.

(** The wildcard on the same response: three records. *)
Lemma response_wildcard_once_per_sink_witness :
  start_signal (Demo.ready "+") = true
  /\ exists emitted,
      gw_status_queue
        (snd (Demo.on_response "+" (Demo.WireConfigs Demo.three_sinks) []
                               (Demo.ready "+")))
      = Some emitted
      /\ List.length emitted = 3%nat
      /\ Forall (fun record => record = ResponseDict Demo.three_sinks) emitted.
Proof.
  split; [reflexivity|].
  destruct (response_wildcard_once_per_sink
              Demo.configs_of Demo.decimal_int (Demo.ready "+")
              (Demo.WireConfigs Demo.three_sinks) [] Demo.three_sinks []
              eq_refl eq_refl eq_refl)
    as (emitted & _ & Hq & Hlen & Hall & _).
  exists emitted. repeat split; assumption.
Defined.

(** An OFFLINE event: the empty record of its gateway. *)
Lemma status_offline_publishes_empty_record_witness :
  start_signal (Demo.ready "+") = true
  /\ gw_status_queue
       (snd (Demo.on_status (Demo.WireStatus Demo.offline_event) []
                            (Demo.ready "+")))
     = Some [StatusDict "gw1" []].
Proof.
  split; [reflexivity|].
  destruct (status_offline_publishes_empty_record
              Demo.status_of (Demo.ready "+")
              (Demo.WireStatus Demo.offline_event) [] Demo.offline_event []
              eq_refl eq_refl eq_refl eq_refl) as (_ & Hq & _).
  exact Hq.
Defined.

(** Before the daemon's start a data message changes no queue. *)
Lemma callbacks_inert_before_start_witness :
  start_signal (daemon_build (DataMessage := string) "+" true true) = false
  /\ same_queues (daemon_build "+" true true)
                 (snd (Demo.on_data "payload" []
                                    (daemon_build "+" true true))).
Proof.
  split; [reflexivity|].
  destruct (callbacks_inert_before_start
              Demo.status_of Demo.configs_of Demo.decimal_int
              (daemon_build (DataMessage := string) "+" true true) eq_refl)
    as [Hdata _].
  destruct (Hdata "payload" []) as [_ Hsame]. exact Hsame.
Defined.

(** C6 as stated fails: an ONLINE event on a started observer puts no record
    on the status queue, and none follows when the gateway's response has no
    sink of the filter's network. *)
Lemma status_online_emits_no_record :
  start_signal (Demo.ready "2") = true
  /\ gw_status_queue (Demo.ready "2") = Some []
  /\ ev_state Demo.online_event = ONLINE
  /\ gw_status_queue
       (snd (Demo.on_status (Demo.WireStatus Demo.online_event) []
                            (Demo.ready "2")))
     = Some []
  /\ ~ (exists record rest,
          gw_status_queue
            (snd (Demo.on_status (Demo.WireStatus Demo.online_event) []
                                 (Demo.ready "2")))
          = Some (record :: rest))
  /\ gw_status_queue
       (Demo.perform
          [Deliver (GwStatus (Demo.WireStatus Demo.online_event) []);
           Deliver (GotGwConfigs (Demo.WireConfigs Demo.one_foreign_sink) [])]
          (Demo.ready "2"))
     = Some [].
Proof.
  repeat split; try reflexivity.
  intros (record & rest & H). vm_compute in H. discriminate H.
Qed.

(** The amended C6 on a started observer with an empty status queue. *)
Lemma status_records_per_event_and_sink_witness :
  start_signal (Demo.ready "+") = true
  /\ gw_status_queue (Demo.ready "+") = Some []
  /\ gw_status_queue
       (snd (Demo.on_status (Demo.WireStatus Demo.offline_event) []
                            (Demo.ready "+")))
     = Some [StatusDict "gw1" []]
  /\ gw_status_queue
       (snd (Demo.on_status (Demo.WireStatus Demo.online_event) []
                            (Demo.ready "+")))
     = Some []
  /\ gw_status_queue
       (snd (Demo.on_response "+" (Demo.WireConfigs Demo.three_sinks) []
                              (Demo.ready "+")))
     = Some [ResponseDict Demo.three_sinks; ResponseDict Demo.three_sinks;
             ResponseDict Demo.three_sinks].
Proof.
  split; [reflexivity|]. split; [reflexivity|].
  destruct (status_records_per_event_and_sink
              Demo.status_of Demo.configs_of Demo.decimal_int
              (Demo.ready "+") [] eq_refl eq_refl)
    as (Hoffline & Honline & Hresponse).
  split; [|split].
  - exact (Hoffline (Demo.WireStatus Demo.offline_event) []
                    Demo.offline_event eq_refl eq_refl).
  - exact (Honline (Demo.WireStatus Demo.online_event) []
                   Demo.online_event eq_refl eq_refl).
  - exact (Hresponse (Demo.WireConfigs Demo.three_sinks) []
                     Demo.three_sinks eq_refl).
Defined.

(** The same ONLINE event twice: two requests. *)
Lemma status_callback_no_deduplication_witness :
  start_signal (Demo.ready "+") = true
  /\ rx_queue
       (Demo.perform
          [Deliver (GwStatus (Demo.WireStatus Demo.online_event) []);
           Deliver (GwStatus (Demo.WireStatus Demo.online_event) [])]
          (Demo.ready "+"))
     = [request_message "get_configs" "gw1";
        request_message "get_configs" "gw1"].
Proof.
  split; [reflexivity|].
  destruct (status_callback_no_deduplication
              Demo.status_of Demo.configs_of Demo.decimal_int
              (Demo.ready "+") (Demo.WireStatus Demo.online_event) []
              Demo.online_event eq_refl eq_refl eq_refl) as [Htwice _].
  exact Htwice.
Defined.

(** C8 as stated fails: a started observer built without a storage queue
    returns from a data message with no queue holding it. *)
Lemma data_not_stored_without_queue :
  start_signal (Demo.ready_without_storage "+") = true
  /\ Demo.on_data "payload" [] (Demo.ready_without_storage "+")
     = (Return tt, Demo.ready_without_storage "+")
  /\ storage_queue
       (snd (Demo.on_data "payload" [] (Demo.ready_without_storage "+")))
     = None
  /\ ~ (exists q,
          storage_queue
            (snd (Demo.on_data "payload" []
                               (Demo.ready_without_storage "+")))
          = Some (q ++ ["payload"])).
Proof.
  repeat split; try reflexivity.
  intros (q & H). vm_compute in H. discriminate H.
Qed.

(** The amended C8: with a storage queue, what the decorator decodes is
    stored as it is, and a message the decorator raises on is not stored. *)
Lemma data_stored_as_decoded_witness :
  start_signal (Demo.ready "+") = true
  /\ storage_queue (Demo.ready "+") = Some []
  /\ Demo.data_cb (Demo.DataDecodes "data" ["gw-event"; "received_data"])
                  (Demo.ready "+")
     = (Return tt, with_storage_queue (Some ["data"]) (Demo.ready "+"))
  /\ Demo.data_cb (Demo.DataRejected ValueError) (Demo.ready "+")
     = (Raise ValueError, Demo.ready "+").
Proof.
  split; [reflexivity|]. split; [reflexivity|]. split.
  - destruct (data_stored_as_decoded
                Demo.data_args (Demo.ready "+")
                (Demo.DataDecodes "data" ["gw-event"; "received_data"]) []
                eq_refl eq_refl) as [Hstored _].
    exact (Hstored "data" ["gw-event"; "received_data"] eq_refl).
  - destruct (data_stored_as_decoded
                Demo.data_args (Demo.ready "+")
                (Demo.DataRejected ValueError) []
                eq_refl eq_refl) as [_ Hraised].
    exact (Hraised ValueError eq_refl).
Defined.

(** After a start, a stop and further deliveries the signal is still set. *)
Lemma start_signal_monotone_witness :
  start_signal (Demo.ready "+") = true
  /\ start_signal
       (Demo.perform
          [Stop; Deliver (ReceivedData "payload" []);
           Deliver (GwStatus (Demo.WireStatus Demo.offline_event) [])]
          (Demo.ready "+"))
     = true.
Proof.
  split; [reflexivity|].
  destruct (start_signal_monotone (DataMessage := string)
              Demo.status_of Demo.configs_of Demo.decimal_int)
    as (_ & Hkept & _).
  apply Hkept. reflexivity.
Defined.

(** Without a storage queue the observer is left as it was. *)
Lemma data_discarded_without_storage_queue_witness :
  start_signal (Demo.ready_without_storage "+") = true
  /\ storage_queue (Demo.ready_without_storage "+") = None
  /\ Demo.on_data "payload" [] (Demo.ready_without_storage "+")
     = (Return tt, Demo.ready_without_storage "+").
Proof.
  split; [reflexivity|]. split; [reflexivity|].
  apply (data_discarded_without_storage_queue
           (Demo.ready_without_storage "+") "payload" []); reflexivity.
Defined.

(** ** Further runs *)

(** The scan ends at the first match: a sink without a network address
    after it is never looked at. *)
Example unreadable_sink_after_match :
  Demo.on_response "2" (Demo.WireConfigs Demo.last_sink_unreadable) []
                   (Demo.ready "2")
  = (Return tt,
     with_logger [configuration_received "gw1"]
       (with_gw_status_queue
          (Some [ResponseDict Demo.last_sink_unreadable]) (Demo.ready "2"))).
Proof. reflexivity. Qed.

(** With no match before it, the same sink raises [KeyError]; nothing has
    been put. *)
Example unreadable_sink_reached :
  Demo.on_response "3" (Demo.WireConfigs Demo.last_sink_unreadable) []
                   (Demo.ready "3")
  = (Raise KeyError, Demo.ready "3").
Proof. reflexivity. Qed.

(** No sink of the filter's network: nothing is put, and the diagnostic says
    so. *)
Example foreign_sink_not_processed :
  Demo.on_response "2" (Demo.WireConfigs Demo.one_foreign_sink) []
                   (Demo.ready "2")
  = (Return tt,
     with_logger [configuration_not_processed "gw1" "2"] (Demo.ready "2")).
Proof. reflexivity. Qed.

(** An OFFLINE event on an observer built without a status queue raises. *)
Example offline_without_status_queue :
  Demo.on_status (Demo.WireStatus Demo.offline_event) []
                 (daemon_start (daemon_build "+" false true))
  = (Raise AttributeError, daemon_start (daemon_build "+" false true)).
Proof. reflexivity. Qed.

(** * The subscriptions and the entry point *)

(** X15.  Whatever the gateway, sink and network filters are, the three
    topics of the dict of subscriptions are distinct: no item of the display
    replaces another, the dict has its three items in the order written, and
    each topic leads to its own callback, the response callback carrying the
    network filter. *)
Theorem subscriptions_never_collide (gateway_id sink_id network_id : string) :
  message_subscribe_handlers gateway_id sink_id network_id
  = [(received_data_topic gateway_id sink_id network_id, DataReceivedCb);
     (status_topic gateway_id, GwStatusCb);
     (get_configs_topic gateway_id, GotGwConfigsCb network_id)]
  /\ dict_get (received_data_topic gateway_id sink_id network_id)
              (message_subscribe_handlers gateway_id sink_id network_id)
     = Some DataReceivedCb
  /\ dict_get (status_topic gateway_id)
              (message_subscribe_handlers gateway_id sink_id network_id)
     = Some GwStatusCb
  /\ dict_get (get_configs_topic gateway_id)
              (message_subscribe_handlers gateway_id sink_id network_id)
     = Some (GotGwConfigsCb network_id).
Proof.
  assert (Hitems :
            message_subscribe_handlers gateway_id sink_id network_id
            = [(received_data_topic gateway_id sink_id network_id,
                DataReceivedCb);
               (status_topic gateway_id, GwStatusCb);
               (get_configs_topic gateway_id, GotGwConfigsCb network_id)]).
  { unfold message_subscribe_handlers, received_data_topic, status_topic,
      get_configs_topic.
    reflexivity. }
  rewrite Hitems. split; [reflexivity|].
  unfold received_data_topic, status_topic, get_configs_topic.
  cbn [dict_get]. rewrite !String.eqb_refl.
  repeat split; reflexivity.
Qed.

(** X16.  [main] touches the daemon only when both the MQTT and the HTTP
    settings pass their sanity check: then it ends by starting the daemon
    and logs no error; otherwise it makes no call on the daemon at all and
    logs errors.  This holds for every run configuration. *)
Theorem main_needs_both_sanity_checks
        (value : option RunConfiguration) (mqtt_sanity http_sanity : bool) :
  (In (CallStart true) (fst (main value mqtt_sanity http_sanity))
   <-> mqtt_sanity = true /\ http_sanity = true)
  /\ (fst (main value mqtt_sanity http_sanity) = []
      <-> ~ (mqtt_sanity = true /\ http_sanity = true))
  /\ ((exists fmt args,
          In (LogError fmt args) (snd (main value mqtt_sanity http_sanity)))
      <-> ~ (mqtt_sanity = true /\ http_sanity = true)).
Proof.
  assert (Hstart : In (CallStart true) (fst (main value true true))).
  { unfold main. cbn [andb fst]. rewrite !in_app_iff. right. right. right.
    right. left. reflexivity. }
  assert (Hquiet : forall fmt args,
             ~ In (LogError fmt args) (snd (main value true true))).
  { intros fmt args [H|[]]. discriminate H. }
  destruct mqtt_sanity, http_sanity.
  - split; [|split].
    + split; [intros _; split; reflexivity | intros _; exact Hstart].
    + split; [|intros H; exfalso; apply H; split; reflexivity].
      intros H. rewrite H in Hstart. destruct Hstart.
    + split; [|intros H; exfalso; apply H; split; reflexivity].
      intros (fmt & args & H). exfalso. apply (Hquiet fmt args H).
  - cbn. split; [|split].
    + split; [intros [] | intros [_ H]; discriminate H].
    + split; [intros _ [_ H]; discriminate H | reflexivity].
    + split; [intros _ [_ H]; discriminate H|].
      intros _. eexists. eexists. left. reflexivity.
  - cbn. split; [|split].
    + split; [intros [] | intros [H _]; discriminate H].
    + split; [intros _ [H _]; discriminate H | reflexivity].
    + split; [intros _ [H _]; discriminate H|].
      intros _. eexists. eexists. left. reflexivity.
  - cbn. split; [|split].
    + split; [intros [] | intros [H _]; discriminate H].
    + split; [intros _ [H _]; discriminate H | reflexivity].
    + split; [intros _ [H _]; discriminate H|].
      intros _. eexists. eexists. left. reflexivity.
Qed.

(** X17.  When [main] starts the daemon, the tasks are wired consistently in
    every run configuration: the mqtt and the http task are handed one and
    the same status queue and http sends to mqtt; the mqtt task is told to
    use storage exactly when the MySQL task has been built before it (and
    set to run with 8 workers), and is then given that task's name, and
    otherwise is given no storage name; only [run_only_http] leaves the
    MySQL task out; and the one [start], with the start signal requested, is
    the last call. *)
Theorem main_wires_tasks_consistently (value : option RunConfiguration) :
  let calls := fst (main value true true) in
  status_queues_handed calls
  = [("mqtt", QueueObject 0); ("http", QueueObject 0)]
  /\ In (CallBuild "http" HTTPObserver
                   [("gw_status_queue", QueueObject 0);
                    ("http_settings", HTTPSettings)]
                   None None (Some "mqtt")) calls
  /\ ((built_tasks calls = ["mysql"; "mqtt"; "http"]
       /\ storage_flags calls = [("mqtt", true, Some (Some "mysql"))]
       /\ In (CallSetRun "mysql" [("n_workers", 8)] false) calls)
      \/ (built_tasks calls = ["mqtt"; "http"]
          /\ storage_flags calls = [("mqtt", false, Some None)]))
  /\ (built_tasks calls = ["mqtt"; "http"] <-> value = Some run_only_http)
  /\ (exists before,
         calls = before ++ [CallStart true]
         /\ forall flag, ~ In (CallStart flag) before).
Proof.
  destruct value as [[|]|]; cbn.
  - repeat split.
    + right. right. right. right. right. left. reflexivity.
    + left. repeat split. right. right. right. left. reflexivity.
    + discriminate.
    + discriminate.
    + eexists [_; _; _; _; _; _]. split; [reflexivity|].
      intros flag H. cbn in H. intuition discriminate.
  - repeat split.
    + right. right. right. left. reflexivity.
    + right. split; reflexivity.
    + eexists [_; _; _; _]. split; [reflexivity|].
      intros flag H. cbn in H. intuition discriminate.
  - repeat split.
    + right. right. right. right. right. left. reflexivity.
    + left. repeat split. right. right. right. left. reflexivity.
    + discriminate.
    + discriminate.
    + eexists [_; _; _; _; _; _]. split; [reflexivity|].
      intros flag H. cbn in H. intuition discriminate.
Qed.

(** * The further properties on concrete deliveries *)

(** An OFFLINE event without a status queue raises and changes nothing. *)
Lemma raising_callback_changes_nothing_witness :
  fst (Demo.on_status (Demo.WireStatus Demo.offline_event) []
                      (daemon_start (daemon_build "+" false true)))
  = Raise AttributeError
  /\ snd (Demo.on_status (Demo.WireStatus Demo.offline_event) []
                         (daemon_start (daemon_build "+" false true)))
     = daemon_start (daemon_build "+" false true).
Proof.
  split; [reflexivity|].
  exact (raising_callback_changes_nothing
           Demo.status_of Demo.configs_of Demo.decimal_int
           (GwStatus (Demo.WireStatus Demo.offline_event) [])
           (daemon_start (daemon_build (DataMessage := string)
                                       "+" false true))
           AttributeError eq_refl).
Defined.

(** Two sinks of network 2 under the filter ["2"]: still one record. *)
Lemma specific_filter_at_most_one_record_witness :
  "2" <> "+"
  /\ (gw_status_queue
        (snd (Demo.on_response "2" (Demo.WireConfigs Demo.three_sinks) []
                               (Demo.ready "2")))
      = gw_status_queue (Demo.ready "2")
      \/ exists q resp,
          Demo.configs_of (Demo.WireConfigs Demo.three_sinks) = Some resp
          /\ gw_status_queue (Demo.ready "2") = Some q
          /\ gw_status_queue
               (snd (Demo.on_response "2" (Demo.WireConfigs Demo.three_sinks)
                                      [] (Demo.ready "2")))
             = Some (q ++ [ResponseDict resp])).
Proof.
  split; [discriminate|].
  apply (specific_filter_at_most_one_record
           Demo.configs_of Demo.decimal_int "2" (Demo.ready "2")
           (Demo.WireConfigs Demo.three_sinks) []).
  discriminate.
Defined.

(** A foreign sink: the queue is as it was and the log says so. *)
Lemma response_diagnostic_matches_queue_witness :
  start_signal (Demo.ready "2") = true
  /\ fst (Demo.on_response "2" (Demo.WireConfigs Demo.one_foreign_sink) []
                           (Demo.ready "2"))
     = Return tt
  /\ ((gw_status_queue
         (snd (Demo.on_response "2" (Demo.WireConfigs Demo.one_foreign_sink)
                                [] (Demo.ready "2")))
       = gw_status_queue (Demo.ready "2")
       /\ logger
            (snd (Demo.on_response "2"
                                   (Demo.WireConfigs Demo.one_foreign_sink)
                                   [] (Demo.ready "2")))
          = logger (Demo.ready "2")
            ++ [configuration_not_processed "gw1" "2"])
      \/ (gw_status_queue
            (snd (Demo.on_response "2"
                                   (Demo.WireConfigs Demo.one_foreign_sink)
                                   [] (Demo.ready "2")))
          <> gw_status_queue (Demo.ready "2")
          /\ logger
               (snd (Demo.on_response "2"
                                      (Demo.WireConfigs Demo.one_foreign_sink)
                                      [] (Demo.ready "2")))
             = logger (Demo.ready "2") ++ [configuration_received "gw1"])).
Proof.
  split; [reflexivity|]. split; [reflexivity|].
  exact (response_diagnostic_matches_queue
           Demo.configs_of Demo.decimal_int "2" (Demo.ready "2")
           (Demo.WireConfigs Demo.one_foreign_sink) []
           Demo.one_foreign_sink eq_refl eq_refl eq_refl).
Defined.

(** Sinks 1, 2, 2 under the filter ["2"]: forwarded once. *)
Lemma specific_filter_forwards_iff_some_sink_matches_witness :
  forallb has_network_address (resp_configs Demo.three_sinks) = true
  /\ Demo.on_response "2" (Demo.WireConfigs Demo.three_sinks) []
                      (Demo.ready "2")
     = (Return tt,
        with_logger [configuration_received "gw1"]
          (with_gw_status_queue (Some [ResponseDict Demo.three_sinks])
                                (Demo.ready "2"))).
Proof.
  split; [reflexivity|].
  exact (specific_filter_forwards_iff_some_sink_matches
           Demo.configs_of Demo.decimal_int "2" 2 (Demo.ready "2")
           (Demo.WireConfigs Demo.three_sinks) [] Demo.three_sinks []
           eq_refl eq_refl eq_refl ltac:(discriminate) eq_refl eq_refl).
Defined.

(** A response without sinks under the wildcard. *)
Lemma response_without_sinks_not_forwarded_witness :
  Demo.on_response "+"
    (Demo.WireConfigs (mkGetConfigsResponse "gw1" 1 0 [])) []
    (Demo.ready "+")
  = (Return tt,
     with_logger [configuration_not_processed "gw1" "+"] (Demo.ready "+")).
Proof.
  exact (response_without_sinks_not_forwarded
           Demo.configs_of Demo.decimal_int "+" (Demo.ready "+")
           (Demo.WireConfigs (mkGetConfigsResponse "gw1" 1 0 [])) []
           (mkGetConfigsResponse "gw1" 1 0 []) eq_refl eq_refl eq_refl).
Defined.

(** Under the filter ["3"] the third sink, which has no address, is
    reached. *)
Lemma sink_without_address_raises_KeyError_witness :
  Demo.decimal_int "3" = Some 3
  /\ Demo.on_response "3" (Demo.WireConfigs Demo.last_sink_unreadable) []
                      (Demo.ready "3")
     = (Raise KeyError, Demo.ready "3").
Proof.
  split; [reflexivity|].
  exact (sink_without_address_raises_KeyError
           Demo.configs_of Demo.decimal_int "3" 3 (Demo.ready "3")
           (Demo.WireConfigs Demo.last_sink_unreadable) []
           Demo.last_sink_unreadable
           [Demo.sink 1 "sink0"; Demo.sink 2 "sink1"]
           (mkConfig None "sink2") []
           eq_refl eq_refl ltac:(discriminate) eq_refl eq_refl eq_refl
           eq_refl).
Defined.

(** The filter ["abc"] meets a sink. *)
Lemma unreadable_filter_raises_at_first_sink_witness :
  Demo.decimal_int "abc" = None
  /\ Demo.on_response "abc" (Demo.WireConfigs Demo.one_foreign_sink) []
                      (Demo.ready "abc")
     = (Raise ValueError, Demo.ready "abc").
Proof.
  split; [reflexivity|].
  exact (unreadable_filter_raises_at_first_sink
           Demo.configs_of Demo.decimal_int "abc" (Demo.ready "abc")
           (Demo.WireConfigs Demo.one_foreign_sink) []
           Demo.one_foreign_sink (Demo.sink 9 "sink0") []
           eq_refl eq_refl ltac:(discriminate) eq_refl eq_refl).
Defined.

(** Four arrivals before the start, one of them a data message that the
    decorator raises on: three log records, no queue item. *)
Lemma unstarted_observer_drops_every_delivery_witness :
  start_signal (daemon_build (DataMessage := string) "+" true true) = false
  /\ same_queues
       (daemon_build "+" true true)
       (Demo.take_all
          [DataIn (Demo.DataDecodes "payload" []);
           DataIn (Demo.DataRejected ValueError);
           StatusIn (Demo.WireStatus Demo.online_event) [];
           ConfigsIn (Demo.WireConfigs Demo.three_sinks) []]
          (daemon_build "+" true true))
  /\ List.length
       (logger
          (Demo.take_all
             [DataIn (Demo.DataDecodes "payload" []);
              DataIn (Demo.DataRejected ValueError);
              StatusIn (Demo.WireStatus Demo.online_event) [];
              ConfigsIn (Demo.WireConfigs Demo.three_sinks) []]
             (daemon_build "+" true true)))
     = 3%nat.
Proof.
  split; [reflexivity|].
  destruct (unstarted_observer_drops_every_delivery
              Demo.status_of Demo.configs_of Demo.decimal_int Demo.data_args
              [DataIn (Demo.DataDecodes "payload" []);
               DataIn (Demo.DataRejected ValueError);
               StatusIn (Demo.WireStatus Demo.online_event) [];
               ConfigsIn (Demo.WireConfigs Demo.three_sinks) []]
              (daemon_build (DataMessage := string) "+" true true) eq_refl)
    as (Hsame & _ & Hlen).
  split; [exact Hsame | exact Hlen].
Defined.

(** Three data messages, the second one refused by the decorator: the two
    others are stored in their order. *)
Lemma data_stream_stored_in_order_witness :
  start_signal (Demo.ready "+") = true
  /\ storage_queue
       (Demo.take_all
          (map DataIn
               [Demo.DataDecodes "a" []; Demo.DataRejected ValueError;
                Demo.DataDecodes "b" []])
          (Demo.ready "+"))
     = Some ["a"; "b"].
Proof.
  split; [reflexivity|].
  exact (f_equal storage_queue
           (data_stream_stored_in_order
              (Payload := Demo.Wire)
              Demo.status_of Demo.configs_of Demo.decimal_int Demo.data_args
              [Demo.DataDecodes "a" []; Demo.DataRejected ValueError;
               Demo.DataDecodes "b" []]
              (Demo.ready "+") [] eq_refl eq_refl)).
Defined.

(** Online, offline, online: two requests and one empty record. *)
Lemma status_stream_split_in_order_witness :
  start_signal (Demo.ready "+") = true
  /\ rx_queue
       (Demo.perform
          (status_deliveries
             [(Demo.WireStatus Demo.online_event, []);
              (Demo.WireStatus Demo.offline_event, []);
              (Demo.WireStatus (mkStatusEvent "gw2" ONLINE), [])])
          (Demo.ready "+"))
     = [request_message "get_configs" "gw1";
        request_message "get_configs" "gw2"].
Proof.
  split; [reflexivity|].
  exact (f_equal rx_queue
           (status_stream_split_in_order
              Demo.status_of Demo.configs_of Demo.decimal_int
              [(Demo.WireStatus Demo.online_event, []);
               (Demo.WireStatus Demo.offline_event, []);
               (Demo.WireStatus (mkStatusEvent "gw2" ONLINE), [])]
              [Demo.online_event; Demo.offline_event;
               mkStatusEvent "gw2" ONLINE]
              (Demo.ready "+") [] eq_refl eq_refl eq_refl)).
Defined.
